(** * AeN label printing: a shallow embedding of [print_label.py]

    The development follows the Python module top-down: the string
    primitives the module relies on ([str.format], slicing, [int], [str],
    [re.sub] for the one pattern in use), the module namespace, the two ZPL
    templates, the widget and application state, and finally the methods of
    [LabelApp] as computations in a small state-and-exception monad.

    A Python [str] is modelled as a Rocq [string] whose characters are code
    points below 256; for those, [\d] matches exactly the characters
    ['0'..'9']. *)

From Stdlib Require Import String Ascii List ZArith Lia Bool Arith.
Import ListNotations.

Local Open Scope list_scope.
Local Open Scope string_scope.

Set Implicit Arguments.

(** ** Exceptions and results *)

Inductive exn : Type :=
| NameError (name : string)
| UnboundLocalError (name : string)
| ValueError (msg : string)
| IndexError (msg : string)
| OverflowError (msg : string)
| AttributeError (msg : string)
| KeyError (key : string)
| TypeError (msg : string)
| ConnectionRefusedError
| OSError (msg : string).

Inductive exn_class : Type :=
| ClsNameError | ClsUnboundLocalError | ClsValueError | ClsIndexError
| ClsOverflowError | ClsAttributeError | ClsKeyError | ClsTypeError
| ClsConnectionRefusedError | ClsOSError.

(** [isinstance e c]: the class of [e] is [c] or one of its subclasses.
    [UnboundLocalError] derives from [NameError], and
    [ConnectionRefusedError] from [OSError]. *)
Definition isinstance (e : exn) (c : exn_class) : bool :=
  match e, c with
  | NameError _, ClsNameError => true
  | UnboundLocalError _, (ClsUnboundLocalError | ClsNameError) => true
  | ValueError _, ClsValueError => true
  | IndexError _, ClsIndexError => true
  | OverflowError _, ClsOverflowError => true
  | AttributeError _, ClsAttributeError => true
  | KeyError _, ClsKeyError => true
  | TypeError _, ClsTypeError => true
  | ConnectionRefusedError, (ClsConnectionRefusedError | ClsOSError) => true
  | OSError _, ClsOSError => true
  | _, _ => false
  end.

Inductive result (A : Type) : Type :=
| Ok (a : A)
| Raise (e : exn).

Arguments Ok {A} a.
Arguments Raise {A} e.

(** ** Strings *)

Module PyStr.

(** [text[:n]] for a non-negative [n]. *)
Definition take (n : nat) (text : string) : string := substring 0 n text.

Definition is_digit (c : ascii) : bool :=
  let n := nat_of_ascii c in ((48 <=? n) && (n <=? 57))%nat.

Definition digit_val (c : ascii) : Z := (Z.of_nat (nat_of_ascii c) - 48)%Z.

(** Characters with the Unicode property [Digit]: besides ['0'..'9'], the
    superscripts two, three and one of Latin-1. *)
Definition is_unicode_digit (c : ascii) : bool :=
  let n := nat_of_ascii c in
  (is_digit c || (n =? 178) || (n =? 179) || (n =? 185))%nat.

(** [text.isdigit()]: non-empty and every character a digit. *)
Fixpoint all_digits (text : string) : bool :=
  match text with
  | EmptyString => true
  | String c rest => is_unicode_digit c && all_digits rest
  end.

Definition isdigit (text : string) : bool :=
  match text with
  | EmptyString => false
  | _ => all_digits text
  end.

(** Value of a digit string read left to right (leading zeros vanish). *)
Fixpoint digits_value (acc : Z) (text : string) : Z :=
  match text with
  | EmptyString => acc
  | String c rest => digits_value (10 * acc + digit_val c)%Z rest
  end.

Definition digit_char (d : Z) : ascii := ascii_of_nat (Z.to_nat (48 + d)%Z).

(** Decimal digits of a non-negative number, most significant first,
    accumulated in front of [acc]. *)
Fixpoint digits_of (fuel : nat) (n : Z) (acc : string) : string :=
  match fuel with
  | O => acc
  | S fuel' =>
      let acc' := String (digit_char (n mod 10)%Z) acc in
      if (n <? 10)%Z then acc' else digits_of fuel' (n / 10) acc'
  end.

(** The decimal text of an integer, with a minus sign for a negative
    one. *)
Definition decimal (n : Z) : string :=
  if (n <? 0)%Z
  then String "-" (digits_of (S (Z.to_nat (Z.log2 (- n)%Z))) (- n)%Z "")
  else digits_of (S (Z.to_nat (Z.log2 n))) n "".

(** [sys.get_int_max_str_digits()] as the interpreter starts it: from
    CPython 3.11 on, [int] refuses a text of more digits and [str] an
    integer of more digits. *)
Definition max_str_digits : Z := 4300.

Definition too_many_digits : exn :=
  ValueError "Exceeds the limit (4300 digits) for integer string conversion".

(** [str(n)] for an [int]. *)
Definition str_of_int (n : Z) : result string :=
  if (max_str_digits <? Z.of_nat (String.length (decimal (Z.abs n))))%Z
  then Raise too_many_digits
  else Ok (decimal n).

(** White space that [int] and [float] skip around a number: tab to
    carriage return and the blank, and of the characters from 128 on those
    with the Unicode property [White_Space], next line and no-break space.
    The separators 28 to 31 are not skipped, although [str.isspace] holds
    of them. *)
Definition is_space (c : ascii) : bool :=
  let n := nat_of_ascii c in
  (((9 <=? n) && (n <=? 13)) || (n =? 32) || (n =? 133) || (n =? 160))%nat.

Fixpoint lstrip (text : string) : string :=
  match text with
  | String c rest => if is_space c then lstrip rest else text
  | EmptyString => EmptyString
  end.

(** The digits of an [int] literal in base 10: digits, with single
    underscores allowed between them.  [sep] tells that a digit has to
    come next, as it has at the start and after an underscore.  The scan
    stops at the first character that is neither, and gives the number of
    digits read, their value and the text left; it gives nothing where a
    digit had to come and did not. *)
Fixpoint int_digits (sep : bool) (count : nat) (acc : Z) (text : string)
  : option (nat * Z * string) :=
  match text with
  | EmptyString => if sep then None else Some (count, acc, text)
  | String c rest =>
      if is_digit c then int_digits false (S count) (10 * acc + digit_val c)%Z rest
      else if Ascii.eqb c "_" then
        if sep then None else int_digits true count acc rest
      else if sep then None else Some (count, acc, text)
  end.

(** [int(text)] for a [str] argument: white space, a sign, the digits,
    white space.  The digits are counted against the limit, leading zeros
    included, once they are read and before the rest of the text is
    looked at. *)
Definition int_of_str (text : string) : result Z :=
  let bad := Raise (ValueError "invalid literal for int() with base 10") in
  let '(negative, body) :=
    match lstrip text with
    | String "-" rest => (true, rest)
    | String "+" rest => (false, rest)
    | body => (false, body)
    end in
  match int_digits true 0 0%Z body with
  | None => bad
  | Some (count, n, rest) =>
      if (max_str_digits <? Z.of_nat count)%Z then Raise too_many_digits
      else
        match lstrip rest with
        | EmptyString => Ok (if negative : bool then (- n)%Z else n)
        | _ => bad
        end
  end.

(** [tmpl.format( *args)] for templates whose replacement fields are plain
    positional indices [{n}], with the escapes [{{] and [}}].  [field]
    holds the index read so far while the scan is inside braces.  The
    substituted arguments are copied verbatim and not scanned again. *)
Fixpoint format_from (tmpl : string) (field : option (option nat))
         (args : list string) : result string :=
  match tmpl with
  | EmptyString =>
      match field with
      | None => Ok EmptyString
      | Some _ => Raise (ValueError "expected '}' before end of string")
      end
  | String c rest =>
      match field with
      | None =>
          if Ascii.eqb c "{" then
            match rest with
            | String "{" rest' =>
                match format_from rest' None args with
                | Ok s => Ok (String "{" s)
                | Raise e => Raise e
                end
            | _ => format_from rest (Some None) args
            end
          else if Ascii.eqb c "}" then
            match rest with
            | String "}" rest' =>
                match format_from rest' None args with
                | Ok s => Ok (String "}" s)
                | Raise e => Raise e
                end
            | _ => Raise (ValueError "Single '}' encountered in format string")
            end
          else
            match format_from rest None args with
            | Ok s => Ok (String c s)
            | Raise e => Raise e
            end
      | Some idx =>
          if Ascii.eqb c "}" then
            match idx with
            | None => Raise (ValueError "automatic field numbering is not modelled")
            | Some i =>
                match nth_error args i with
                | Some a =>
                    match format_from rest None args with
                    | Ok s => Ok (a ++ s)
                    | Raise e => Raise e
                    end
                | None =>
                    Raise (IndexError "Replacement index out of range for positional args tuple")
                end
            end
          else if is_digit c then
            let d := (nat_of_ascii c - 48)%nat in
            format_from rest
              (Some (Some (match idx with None => d | Some i => (10 * i + d)%nat end)))
              args
          else Raise (ValueError "only positional replacement fields are modelled")
      end
  end.

Definition format (tmpl : string) (args : list string) : result string :=
  format_from tmpl None args.

(** Number of (possibly overlapping) occurrences of [pat] in [text]. *)
Fixpoint count_occ (pat text : string) : nat :=
  match text with
  | EmptyString => if String.eqb pat EmptyString then 1%nat else 0%nat
  | String _ rest =>
      ((if prefix pat text then 1 else 0) + count_occ pat rest)%nat
  end.

(** [bytes(text, "utf-8")] on code points below 256. *)
Fixpoint utf8 (text : string) : list nat :=
  match text with
  | EmptyString => []
  | String c rest =>
      let n := nat_of_ascii c in
      if (n <? 128)%nat then n :: utf8 rest
      else (192 + n / 64)%nat :: (128 + n mod 64)%nat :: utf8 rest
  end.

End PyStr.

(** ** Floating point

    [float] values are IEEE-754 binary64 numbers kept exactly: a finite
    value is [m * 2^e] with [|m| < 2^53] and [-1074 <= e <= 971].  Rounding
    is to nearest, ties to even.  The sign of a zero is not tracked: adding
    an [int] to a zero of either sign gives [+0.0] or a non-zero number. *)

Module PyFloat.

Local Open Scope Z_scope.

Inductive float : Type :=
| Finite (m e : Z)
| Inf (neg : bool)
| NaN.

Definition zero : float := Finite 0 0.

(** [(n/d) / 2^e] as a fraction. *)
Definition scale2 (n d e : Z) : Z * Z :=
  if 0 <=? e then (n, d * 2 ^ e) else (n * 2 ^ (- e), d).

(** [floor (log2 (n/d))] for positive [n], [d]. *)
Definition floor_log2 (n d : Z) : Z :=
  let l := Z.log2 n - Z.log2 d in
  let '(n', d') := scale2 n d l in
  if d' <=? n' then l else l - 1.

(** The binary64 number nearest to [n/d], for positive [n] and [d]. *)
Definition round_pos (n d : Z) : float :=
  let e := Z.max (floor_log2 n d - 52) (-1074) in
  let '(n', d') := scale2 n d e in
  let q := n' / d' in
  let r := n' mod d' in
  let m := if 2 * r <? d' then q
           else if d' <? 2 * r then q + 1
           else if Z.even q then q else q + 1 in
  let '(m, e) := if m =? 2 ^ 53 then (2 ^ 52, e + 1) else (m, e) in
  if m =? 0 then zero
  else if 971 <? e then Inf false
  else Finite m e.

Definition neg (x : float) : float :=
  match x with
  | Finite m e => Finite (- m) e
  | Inf b => Inf (negb b)
  | NaN => NaN
  end.

Definition round_q (n d : Z) : float :=
  if n =? 0 then zero
  else if n <? 0 then neg (round_pos (- n) d)
  else round_pos n d.

(** [float(n)] for an [int]. *)
Definition of_int (n : Z) : result float :=
  match round_q n 1 with
  | Finite m e => Ok (Finite m e)
  | _ => Raise (OverflowError "int too large to convert to float")
  end.

(** [x + y]. *)
Definition add (x y : float) : float :=
  match x, y with
  | NaN, _ | _, NaN => NaN
  | Inf a, Inf b => if Bool.eqb a b then Inf a else NaN
  | Inf a, _ | _, Inf a => Inf a
  | Finite m1 e1, Finite m2 e2 =>
      let e := Z.min e1 e2 in
      let '(n, d) := scale2 (m1 * 2 ^ (e1 - e) + m2 * 2 ^ (e2 - e)) 1 (- e) in
      round_q n d
  end.

(** *** Parsing: [float(text)] *)

Fixpoint span_digits (acc : string) (text : string) : string * string :=
  match text with
  | String c rest =>
      if PyStr.is_digit c then span_digits (acc ++ String c "") rest
      else (acc, text)
  | EmptyString => (acc, EmptyString)
  end.

Definition pow10_scale (n : Z) (k : Z) : Z * Z :=
  if 0 <=? k then (n * 10 ^ k, 1) else (n, 10 ^ (- k)).

(** Optional exponent part [e[+-]digits]; a dangling [e] is an error. *)
Definition parse_exponent (text : string) : option (Z * string) :=
  match text with
  | String c rest =>
      if (Ascii.eqb c "e" || Ascii.eqb c "E")%bool then
        let '(sgn, rest1) :=
          match rest with
          | String "-" r => (-1, r)
          | String "+" r => (1, r)
          | _ => (1, rest)
          end in
        let '(ds, rest2) := span_digits "" rest1 in
        match ds with
        | EmptyString => None
        | _ => Some (sgn * PyStr.digits_value 0 ds, rest2)
        end
      else Some (0, text)
  | EmptyString => Some (0, text)
  end.

(** Decimal literals [[sign] digits [. digits] [e[sign]digits]] with
    optional surrounding white space.  This covers every text the pattern
    of [inc_nums] can hand to [increment]; the further forms CPython
    accepts (underscores between digits, [inf], [nan]) are not modelled
    and are reported like any other malformed text. *)
Definition of_string (text : string) : result float :=
  let bad := Raise (ValueError "could not convert string to float") in
  let '(negative, body) :=
    match PyStr.lstrip text with
    | String "-" r => (true, r)
    | String "+" r => (false, r)
    | r => (false, r)
    end in
  let '(ip, rest1) := span_digits "" body in
  let '(fp, rest2) :=
    match rest1 with
    | String "." r => span_digits "" r
    | _ => (EmptyString, rest1)
    end in
  match (ip ++ fp)%string with
  | EmptyString => bad
  | ds =>
      match parse_exponent rest2 with
      | None => bad
      | Some (ex, rest3) =>
          match PyStr.lstrip rest3 with
          | EmptyString =>
              let '(n, d) :=
                pow10_scale (PyStr.digits_value 0 ds)
                            (ex - Z.of_nat (String.length fp)) in
              let x := round_q n d in
              Ok (if negative then neg x else x)
          | _ => bad
          end
      end
  end.

(** *** Printing: [str(x)], the shortest text that reads back as [x] *)

Definition num_digits (n : Z) : Z :=
  Z.of_nat (String.length (PyStr.decimal n)).

(** [floor (log10 (n/d))] for positive [n], [d]. *)
Definition floor_log10 (n d : Z) : Z :=
  if d <=? n then num_digits (n / d) - 1
  else
    let j := num_digits (d / n) in
    if d <=? n * 10 ^ (j - 1) then - (j - 1) else - j.

(** Does the decimal [c * 10^s] read back as [m * 2^e]? *)
Definition reads_back (m e c s : Z) : bool :=
  let '(n, d) := pow10_scale c s in
  match round_q n d with
  | Finite m' e' => (m' =? m) && (e' =? e)
  | _ => false
  end.

(** Search for the shortest digit string, trying [k], [k+1], ...
    significant digits.  Of the two [k]-digit neighbours of the value the
    one that reads back is taken, the nearer one if both do (the even one
    on a tie).  Returns the digits as a number and their scale. *)
Fixpoint shortest (fuel : nat) (k : Z) (m e p : Z) : Z * Z :=
  let '(n, d) := scale2 m 1 (- e) in
  let s := p - k + 1 in
  let '(n', d') := (if 0 <=? s then (n, d * 10 ^ s) else (n * 10 ^ (- s), d)) in
  let lo := n' / d' in
  let r := n' mod d' in
  let hi := lo + 1 in
  let ok_lo := reads_back m e lo s in
  let ok_hi := reads_back m e hi s in
  let pick_hi := if d' <? 2 * r then true
                 else if 2 * r <? d' then false
                 else Z.odd lo in
  match fuel with
  | O => (lo, s)
  | S fuel' =>
      if (r =? 0) && ok_lo then (lo, s)
      else if ok_lo && ok_hi then (if pick_hi then (hi, s) else (lo, s))
      else if ok_lo then (lo, s)
      else if ok_hi then (hi, s)
      else shortest fuel' (k + 1) m e p
  end.

Fixpoint strip_zeros (fuel : nat) (c s : Z) : Z * Z :=
  match fuel with
  | O => (c, s)
  | S fuel' =>
      if (c mod 10 =? 0) && negb (c =? 0) then strip_zeros fuel' (c / 10) (s + 1)
      else (c, s)
  end.

Fixpoint zeros (n : nat) : string :=
  match n with O => EmptyString | S n' => String "0" (zeros n') end.

(** Layout used by [repr]/[str]: exponent form when the decimal point
    would sit more than 16 places right of, or 4 or more places left of,
    the first digit; otherwise positional, with [.0] added to integers. *)
Definition layout (digits : string) (decpt : Z) : string :=
  let nd := Z.of_nat (String.length digits) in
  if (decpt <=? -4) || (16 <? decpt) then
    let ex := decpt - 1 in
    let mant :=
      match digits with
      | String c EmptyString => digits
      | String c rest => String c (String "." rest)
      | EmptyString => digits
      end in
    let exs := PyStr.decimal (Z.abs ex) in
    let exs := if Z.abs ex <? 10 then String "0" exs else exs in
    let sgn := if ex <? 0 then "-"%string else "+"%string in
    (mant ++ "e" ++ sgn ++ exs)%string
  else if decpt <=? 0 then
    ("0." ++ zeros (Z.to_nat (- decpt)) ++ digits)%string
  else if nd <=? decpt then
    (digits ++ zeros (Z.to_nat (decpt - nd)) ++ ".0")%string
  else
    (substring 0 (Z.to_nat decpt) digits ++ "." ++
     substring (Z.to_nat decpt) (Z.to_nat (nd - decpt)) digits)%string.

Definition str_pos (m e : Z) : string :=
  let '(n, d) := scale2 m 1 (- e) in
  let p := floor_log10 n d in
  let '(c, s) := shortest 17 1 m e p in
  let '(c, s) := strip_zeros 17 c s in
  let digits := PyStr.decimal c in
  layout digits (s + Z.of_nat (String.length digits)).

Definition str (x : float) : string :=
  match x with
  | NaN => "nan"
  | Inf b => if b then "-inf" else "inf"
  | Finite m e =>
      if m =? 0 then "0.0"
      else if m <? 0 then String "-" (str_pos (- m) e)
      else str_pos m e
  end.

End PyFloat.

(** ** Regular-expression substitution

    [re.sub('(\d+(?:\.\d+)?)', repl, text)] as a single left-to-right scan.
    A match is a maximal run of digits, extended by a point and a further
    maximal run of digits when the point is directly followed by a digit.
    Matches do not overlap; every other character is copied.

    The digit class of the pattern is read on code points below 256, where
    it holds of ['0'..'9'] only; the decimal digits of other scripts,
    which it matches as well, lie beyond the strings of this model, and
    the statements about the substitution are statements about texts of
    code points below 256. *)

Module PyRe.

Inductive scan : Type :=
| Outside
| InInt (m : string)
| InFrac (m : string).

Definition next_is_digit (text : string) : bool :=
  match text with
  | String d _ => PyStr.is_digit d
  | EmptyString => false
  end.

Definition snoc (m : string) (c : ascii) : string := m ++ String c "".

Fixpoint sub_numbers (repl : string -> result string) (st : scan)
         (text : string) : result string :=
  match text with
  | EmptyString =>
      match st with
      | Outside => Ok EmptyString
      | InInt m | InFrac m => repl m
      end
  | String c rest =>
      if PyStr.is_digit c then
        sub_numbers repl
          (match st with
           | Outside => InInt (String c "")
           | InInt m => InInt (snoc m c)
           | InFrac m => InFrac (snoc m c)
           end) rest
      else
        let close (m : string) : result string :=
          match repl m with
          | Ok r =>
              match sub_numbers repl Outside rest with
              | Ok s => Ok (r ++ String c s)
              | Raise e => Raise e
              end
          | Raise e => Raise e
          end in
        match st with
        | Outside =>
            match sub_numbers repl Outside rest with
            | Ok s => Ok (String c s)
            | Raise e => Raise e
            end
        | InInt m =>
            if Ascii.eqb c "." && next_is_digit rest
            then sub_numbers repl (InFrac (snoc m c)) rest
            else close m
        | InFrac m => close m
        end
  end.

Definition sub (repl : string -> result string) (text : string) : result string :=
  sub_numbers repl Outside text.

End PyRe.

(** ** The module namespace

    Names bound at module level once [print_label.py] has been executed:
    its imports, its constants, its top-level [def] and [class]
    statements, and the attributes every module carries.  The methods of
    [LabelApp], [inc_nums] among them, are attributes of the class object
    and are not in this list. *)

Definition module_globals : list string :=
  [ "sys"; "os"; "time"; "uuid"; "warnings"; "socket"; "yaml"; "dt";
    "ArgumentParser"; "RawDescriptionHelpFormatter"; "App"; "Widget";
    "TextInput"; "Button"; "Bubble"; "FloatLayout"; "GridLayout";
    "AnchorLayout"; "Popup"; "BooleanProperty"; "Label"; "NumericProperty";
    "resource_add_path"; "Config";
    "__all__"; "__version__"; "__date__"; "__updated__";
    "DEBUG"; "TESTRUN"; "PROFILE"; "IPS";
    "new_hex_uuid"; "create_label"; "create_large";
    "LimitText"; "Alert"; "LabelWidget"; "LabelApp";
    "read_config"; "resourcePath"; "main"; "parse_options";
    "__name__"; "__doc__"; "__package__"; "__loader__"; "__spec__";
    "__file__"; "__cached__"; "__builtins__" ].

(** Attributes of the class [LabelApp]. *)
Definition class_LabelApp : list string :=
  [ "title"; "icon"; "build"; "on_stop"; "start_printer"; "send_to_printer";
    "inc_nums"; "print_label" ].

(** The names of the [builtins] module (as of CPython 3.11; earlier
    versions have fewer). *)
Definition builtins : list string :=
  [ "ArithmeticError"; "AssertionError"; "AttributeError";
    "BaseException"; "BaseExceptionGroup"; "BlockingIOError";
    "BrokenPipeError"; "BufferError"; "BytesWarning"; "ChildProcessError";
    "ConnectionAbortedError"; "ConnectionError"; "ConnectionRefusedError";
    "ConnectionResetError"; "DeprecationWarning"; "EOFError"; "Ellipsis";
    "EncodingWarning"; "EnvironmentError"; "Exception"; "ExceptionGroup";
    "False"; "FileExistsError"; "FileNotFoundError"; "FloatingPointError";
    "FutureWarning"; "GeneratorExit"; "IOError"; "ImportError";
    "ImportWarning"; "IndentationError"; "IndexError"; "InterruptedError";
    "IsADirectoryError"; "KeyError"; "KeyboardInterrupt"; "LookupError";
    "MemoryError"; "ModuleNotFoundError"; "NameError"; "None";
    "NotADirectoryError"; "NotImplemented"; "NotImplementedError";
    "OSError"; "OverflowError"; "PendingDeprecationWarning";
    "PermissionError"; "ProcessLookupError"; "RecursionError";
    "ReferenceError"; "ResourceWarning"; "RuntimeError"; "RuntimeWarning";
    "StopAsyncIteration"; "StopIteration"; "SyntaxError"; "SyntaxWarning";
    "SystemError"; "SystemExit"; "TabError"; "TimeoutError"; "True";
    "TypeError"; "UnboundLocalError"; "UnicodeDecodeError";
    "UnicodeEncodeError"; "UnicodeError"; "UnicodeTranslateError";
    "UnicodeWarning"; "UserWarning"; "ValueError"; "Warning";
    "ZeroDivisionError"; "__build_class__"; "__debug__"; "__doc__";
    "__import__"; "__loader__"; "__name__"; "__package__"; "__spec__";
    "abs"; "aiter"; "all"; "anext"; "any"; "ascii"; "bin"; "bool";
    "breakpoint"; "bytearray"; "bytes"; "callable"; "chr"; "classmethod";
    "compile"; "complex"; "copyright"; "credits"; "delattr"; "dict";
    "dir"; "divmod"; "enumerate"; "eval"; "exec"; "exit"; "filter";
    "float"; "format"; "frozenset"; "getattr"; "globals"; "hasattr";
    "hash"; "help"; "hex"; "id"; "input"; "int"; "isinstance";
    "issubclass"; "iter"; "len"; "license"; "list"; "locals"; "map";
    "max"; "memoryview"; "min"; "next"; "object"; "oct"; "open"; "ord";
    "pow"; "print"; "property"; "quit"; "range"; "repr"; "reversed";
    "round"; "set"; "setattr"; "slice"; "sorted"; "staticmethod"; "str";
    "sum"; "super"; "tuple"; "type"; "vars"; "zip" ].

Definition bound_in (name : string) (scope : list string) : bool :=
  existsb (String.eqb name) scope.

(** A bare name that is not local to a function body is looked up in the
    module globals and then in the built-ins; class bodies are not
    enclosing scopes for their methods. *)
Definition lookup_global (name : string) : result unit :=
  if bound_in name module_globals || bound_in name builtins
  then Ok tt
  else Raise (NameError name).

(** ** The two label templates *)

Definition newline : string := String (ascii_of_nat 10) "".

Fixpoint join_lines (ls : list string) : string :=
  match ls with
  | [] => ""
  | [l] => l
  | l :: rest => l ++ newline ++ join_lines rest
  end.

(** The triple-quoted literal of [create_label]; it opens with a line
    break. *)
Definition zpl_medium : string :=
  join_lines
    [ "";
      "CT~~CD,~CC^~CT~";
      "^XA~TA000~JSN^LT0^MNW^MTT^PON^PMN^LH0,0^JMA^PR4,4~SD30^JUS^LRN^CI28^XZ";
      "^XA";
      "^MMT";
      "^PW898";
      "^LL0295";
      "^LS0";
      "^BY110,110^FT506,111^BXN,4,200,22,22,1,~";
      "^FH\^FD{0}^FS";
      "^FT445,151^A0N,21,21^FH\^FD{1}^FS";
      "^FT445,184^A0N,21,21^FH\^FD{2}^FS";
      "^FT445,217^A0N,21,21^FH\^FD{3}^FS";
      "^FT445,253^A0N,21,21^FH\^FD{4}^FS";
      "^FT462,33^A0R,21,21^FH\^FD{5}^FS";
      "^PQ1,0,1,Y^XZ" ].

(** The triple-quoted literal of [create_large]. *)
Definition zpl_large : string :=
  join_lines
    [ "";
      "CT~~CD,~CC^~CT~";
      "^XA~TA000~JSN^LT0^MNW^MTT^PON^PMN^LH0,0^JMA^PR4,4~SD28^JUS^LRN^CI28^XZ";
      "^XA";
      "^MMT";
      "^PW602";
      "^LL0295";
      "^LS0";
      "^BY110,110^FT465,143^BXN,5,200,22,22,1,~";
      "^FH\^FD{0}^FS";
      "^FT491,171^A0N,21,21^FH\^FD{6}^FS";
      "^FT35,67^A0N,42,40^FH\^FD{1}^FS";
      "^FT35,119^A0N,42,40^FH\^FD{2}^FS";
      "^FT35,171^A0N,42,40^FH\^FD{3}^FS";
      "^FT35,226^A0N,42,40^FH\^FD{4}^FS";
      "^FT35,278^A0N,42,40^FH\^FD{5}^FS";
      "^PQ1,0,1,Y^XZ" ].

Definition create_label (uuid text1 text2 text3 text4 : string) : result string :=
  PyStr.format zpl_medium
    [uuid; text1; text2; text3; text4; PyStr.take 8 uuid].

Definition create_large (uuid text1 text2 text3 text4 text5 : string)
  : result string :=
  PyStr.format zpl_large
    [uuid; text1; text2; text3; text4; text5; PyStr.take 8 uuid].

(** ** Widgets *)

Record LimitText : Type := mkLimitText
  { text : string;
    max_characters : nat;
    inc_num : bool }.

(** The widgets the application reaches through [self.widget.ids]. *)
Record Ids : Type := mkIds
  { ip_text : string;
    number_text : string;
    setup_text : string;
    text1 : LimitText;
    text2 : LimitText;
    text3 : LimitText;
    text4 : LimitText;
    text5 : LimitText }.

Record LabelWidget : Type := mkLabelWidget
  { ids : Ids;
    label_size : string }.

(** The module-level table [IPS]. *)
Record Ips : Type := mkIps
  { ips_M : string;
    ips_L : string }.

Definition default_IPS : Ips := mkIps "158.39.88.208" "158.39.89.81".

(** [change_size(ida, size)], local to [on_size_select]. *)
Definition change_size (ida : LimitText) (size : nat) : LimitText :=
  mkLimitText (PyStr.take size (text ida)) size (inc_num ida).

Definition on_size_select (IPS : Ips) (w : LabelWidget) (new_size : string)
  : LabelWidget :=
  let i := ids w in
  if String.eqb new_size "Medium" then
    mkLabelWidget
      (mkIds (ips_M IPS) (number_text i) (setup_text i)
             (change_size (text1 i) 18) (change_size (text2 i) 18)
             (change_size (text3 i) 18) (change_size (text4 i) 18)
             (change_size (text5 i) 0))
      new_size
  else if String.eqb new_size "Large" then
    mkLabelWidget
      (mkIds (ips_L IPS) (number_text i) (setup_text i)
             (change_size (text1 i) 20) (change_size (text2 i) 20)
             (change_size (text3 i) 20) (change_size (text4 i) 20)
             (change_size (text5 i) 36))
      new_size
  else mkLabelWidget i new_size.


Definition blank_form : LabelWidget :=
  let blank := mkLimitText "" 0 false in
  mkLabelWidget (mkIds "" "" "" blank blank blank blank blank) "".


(** ** Application state and the outside world *)

Inductive sock_state : Type :=
| Fresh                                  (* created, never connected *)
| Connected (host : string) (port : Z)
| Closed.

(** What the program does to the outside world, in order.  [EvRender]
    marks the return of [create_label]/[create_large]; it is bookkeeping
    for stating the order of the steps and has no effect of its own. *)
Inductive event : Type :=
| EvPrint (line : string)
| EvAlert (title msg : string)
| EvSocket (sock : nat)
| EvConnect (sock : nat) (host : string) (port : Z)
| EvUuid (value : string)
| EvRender (zpl : string)
| EvSend (sock : nat) (payload : list nat)
| EvSleep (num den : Z)                  (* seconds, as a fraction *)
| EvClose (sock : nat).

Record LabelApp : Type := mkLabelApp
  { widget : LabelWidget;
    socket : option nat;                 (* reference into [sockets] *)
    IP : option string;
    PORT : option Z;
    BUFFER_SIZE : option Z }.

Record World : Type := mkWorld
  { app : LabelApp;
    IPS : Ips;
    sockets : list sock_state;           (* every socket object created *)
    trace : list event }.

(** The environment answers the calls whose outcome the program does not
    decide; each answer may depend on everything that happened before. *)
Record Env : Type := mkEnv
  { uuid1 : list event -> string;
    net_connect : list event -> string -> Z -> option exn;
    net_send : list event -> list nat -> option exn }.

Definition M (A : Type) : Type := World -> result A * World.

Definition ret {A : Type} (a : A) : M A := fun w => (Ok a, w).

Definition raise {A : Type} (e : exn) : M A := fun w => (Raise e, w).

Definition bind {A B : Type} (m : M A) (k : A -> M B) : M B :=
  fun w =>
    match m w with
    | (Ok a, w') => k a w'
    | (Raise e, w') => (Raise e, w')
    end.

(** [try: m / except classes: handler]. *)
Definition try_except {A : Type} (m : M A) (classes : list exn_class)
           (handler : M A) : M A :=
  fun w =>
    match m w with
    | (Ok a, w') => (Ok a, w')
    | (Raise e, w') =>
        if existsb (isinstance e) classes then handler w' else (Raise e, w')
    end.

Definition lift {A : Type} (r : result A) : M A := fun w => (r, w).

Definition gets {A : Type} (f : World -> A) : M A := fun w => (Ok (f w), w).

Definition modify (f : World -> World) : M unit := fun w => (Ok tt, f w).

Declare Scope py_scope.
Delimit Scope py_scope with py.
Notation "x <- m ;; k" := (bind m (fun x => k))
  (at level 61, m at next level, right associativity) : py_scope.
Notation "m ;; k" := (bind m (fun _ => k))
  (at level 61, right associativity) : py_scope.
Local Open Scope py_scope.

Definition emit (e : event) : M unit :=
  modify (fun w => mkWorld (app w) (IPS w) (sockets w) (trace w ++ [e])).

Definition set_app (f : LabelApp -> LabelApp) : M unit :=
  modify (fun w => mkWorld (f (app w)) (IPS w) (sockets w) (trace w)).

Fixpoint list_set {A : Type} (l : list A) (i : nat) (a : A) : list A :=
  match l, i with
  | [], _ => []
  | _ :: t, O => a :: t
  | h :: t, S i' => h :: list_set t i' a
  end.

Definition set_sock (s : nat) (st : sock_state) : M unit :=
  modify (fun w => mkWorld (app w) (IPS w) (list_set (sockets w) s st) (trace w)).

Definition sock_of (w : World) : option sock_state :=
  match socket (app w) with
  | Some s => nth_error (sockets w) s
  | None => None
  end.

Definition print (line : string) : M unit := emit (EvPrint line).

(** [Alert(title, text)]: builds and opens the popup. *)
Definition Alert (title msg : string) : M unit := emit (EvAlert title msg).

(** [time.sleep(2 / 1e6)]. *)
Definition sleep_2us : M unit := emit (EvSleep 2 1000000).

(** [for _ in range(n)] threading the locals the body reassigns. *)
Fixpoint for_range {S : Type} (n : nat) (body : S -> M S) (s : S) : M S :=
  match n with
  | O => ret s
  | Datatypes.S n' => s' <- body s ;; for_range n' body s'
  end.

Definition set_text4_text (t : string) (a : LabelApp) : LabelApp :=
  let w := widget a in
  let i := ids w in
  let f := text4 i in
  mkLabelApp
    (mkLabelWidget
       (mkIds (ip_text i) (number_text i) (setup_text i)
              (text1 i) (text2 i) (text3 i)
              (mkLimitText t (max_characters f) (inc_num f))
              (text5 i))
       (label_size w))
    (socket a) (IP a) (PORT a) (BUFFER_SIZE a).

(** ** The methods of [LabelApp] *)

Section Methods.

Variable env : Env.

(** [str(uuid.uuid1())], the body of [new_hex_uuid]; [print_label] spells
    the same expression out in place. *)
Definition new_hex_uuid : M string :=
  h <- gets trace ;;
  let u := uuid1 env h in
  emit (EvUuid u) ;;
  ret u.

Definition on_stop : M bool :=
  print "Exiting" ;;
  s <- gets (fun w => socket (app w)) ;;
  match s with
  | Some sk => emit (EvClose sk) ;; set_sock sk Closed
  | None => ret tt
  end ;;
  ret true.

(** The socket object is always obtained; only [connect] can fail. *)
Definition start_printer (ip : string) : M unit :=
  set_app (fun a => mkLabelApp (widget a) (socket a) (Some ip) (PORT a) (BUFFER_SIZE a)) ;;
  set_app (fun a => mkLabelApp (widget a) (socket a) (IP a) (Some 9100%Z) (BUFFER_SIZE a)) ;;
  set_app (fun a => mkLabelApp (widget a) (socket a) (IP a) (PORT a) (Some 1024%Z)) ;;
  sk <- gets (fun w => List.length (sockets w)) ;;
  modify (fun w => mkWorld (app w) (IPS w) (sockets w ++ [Fresh]) (trace w)) ;;
  emit (EvSocket sk) ;;
  set_app (fun a => mkLabelApp (widget a) (Some sk) (IP a) (PORT a) (BUFFER_SIZE a)) ;;
  h <- gets trace ;;
  emit (EvConnect sk ip 9100%Z) ;;
  match net_connect env h ip 9100%Z with
  | None => set_sock sk (Connected ip 9100%Z)
  | Some e => raise e
  end.

Definition send_to_printer (zpl : string) : M unit :=
  s <- gets (fun w => socket (app w)) ;;
  match s with
  | None => raise (AttributeError "'NoneType' object has no attribute 'send'")
  | Some sk =>
      let payload := PyStr.utf8 zpl in
      h <- gets trace ;;
      st <- gets (fun w => nth_error (sockets w) sk) ;;
      emit (EvSend sk payload) ;;
      match st with
      | Some (Connected _ _) =>
          match net_send env h payload with
          | None => ret tt
          | Some e => raise e
          end
      | _ => raise (OSError "socket is not connected")
      end
  end.

(** [increment(text, inc)], local to [inc_nums]. *)
Definition increment (text : string) (inc : Z) : result string :=
  if PyStr.isdigit text then
    match PyStr.int_of_str text with
    | Ok n => PyStr.str_of_int (n + inc)
    | Raise e => Raise e
    end
  else
    match PyFloat.of_string text with
    | Ok x =>
        match PyFloat.of_int inc with
        | Ok y => Ok (PyFloat.str (PyFloat.add x y))
        | Raise e => Raise e
        end
    | Raise e => Raise e
    end.

(** [inc_nums(text)]: after the local [def], the [return] statement
    first evaluates the global name [re]. *)
Definition inc_nums (t : string) : M string :=
  lift (lookup_global "re") ;;
  lift (PyRe.sub (fun m => increment m 1) t).

(** The locals of [print_label] that the loop body reassigns. *)
Record loop_locals : Type := mkLocals
  { l_text4 : string;
    l_zpl : option string }.

Definition print_copy (t1 t2 t3 t5 : string) (l : loop_locals) : M loop_locals :=
  inc <- gets (fun w => inc_num (text4 (ids (widget (app w))))) ;;
  t4 <- (if inc : bool then
           lift (lookup_global "inc_nums") ;;
           t <- inc_nums (l_text4 l) ;;
           set_app (set_text4_text t) ;;
           ret t
         else ret (l_text4 l)) ;;
  setup <- gets (fun w => setup_text (ids (widget (app w)))) ;;
  zpl <- (if String.eqb setup "Large" then
            u <- new_hex_uuid ;;
            z <- lift (create_large u t1 t2 t3 t4 t5) ;;
            emit (EvRender z) ;;
            ret (Some z)
          else if String.eqb setup "Medium" then
            u <- new_hex_uuid ;;
            z <- lift (create_label u t1 t2 t3 t4) ;;
            emit (EvRender z) ;;
            ret (Some z)
          else ret (l_zpl l)) ;;
  match zpl with
  | Some z => send_to_printer z
  | None => raise (UnboundLocalError "zpl")
  end ;;
  sleep_2us ;;
  ret (mkLocals t4 zpl).

Definition print_label : M unit :=
  print "Printing label" ;;
  ip <- gets (fun w => ip_text (ids (widget (app w)))) ;;
  started <- (if negb (String.eqb ip "") then
                try_except (start_printer ip ;; ret true)
                  [ClsConnectionRefusedError; ClsOSError]
                  (Alert "Wrong IP" "Please input a valid/correct IP" ;;
                   ret false)
              else
                Alert "Need IP" "Please input an IP" ;;
                ret false) ;;
  if started : bool then
    t1 <- gets (fun w => text (text1 (ids (widget (app w))))) ;;
    t2 <- gets (fun w => text (text2 (ids (widget (app w))))) ;;
    t3 <- gets (fun w => text (text3 (ids (widget (app w))))) ;;
    t4 <- gets (fun w => text (text4 (ids (widget (app w))))) ;;
    t5 <- gets (fun w => text (text5 (ids (widget (app w))))) ;;
    number <- gets (fun w => number_text (ids (widget (app w)))) ;;
    n <- lift (PyStr.int_of_str number) ;;
    for_range (Z.to_nat n) (print_copy t1 t2 t3 t5) (mkLocals t4 None) ;;
    on_stop ;;
    ret tt
  else ret tt.

End Methods.

(** [build]: the application object around a freshly made widget. *)
Definition build (f : LabelWidget) (ips : Ips) : LabelApp :=
  let i := ids f in
  mkLabelApp
    (mkLabelWidget
       (mkIds (ips_M ips) (number_text i) (setup_text i)
              (text1 i) (text2 i) (text3 i) (text4 i) (text5 i))
       "Medium")
    None None None None.

(** * Vocabulary of the statements *)

(** ** Documents, slot by slot *)

(** Text that precedes the first slot of the Medium template. *)
Definition medium_head : string :=
  join_lines
    [ "";
      "CT~~CD,~CC^~CT~";
      "^XA~TA000~JSN^LT0^MNW^MTT^PON^PMN^LH0,0^JMA^PR4,4~SD30^JUS^LRN^CI28^XZ";
      "^XA"; "^MMT"; "^PW898"; "^LL0295"; "^LS0";
      "^BY110,110^FT506,111^BXN,4,200,22,22,1,~";
      "^FH\^FD" ].

Definition large_head : string :=
  join_lines
    [ "";
      "CT~~CD,~CC^~CT~";
      "^XA~TA000~JSN^LT0^MNW^MTT^PON^PMN^LH0,0^JMA^PR4,4~SD28^JUS^LRN^CI28^XZ";
      "^XA"; "^MMT"; "^PW602"; "^LL0295"; "^LS0";
      "^BY110,110^FT465,143^BXN,5,200,22,22,1,~";
      "^FH\^FD" ].

(** A field command: origin, font, then the data between [^FD] and [^FS],
    closed by a line break. *)
Definition field (origin font data : string) : string :=
  "^FT" ++ origin ++ "^" ++ font ++ "^FH\^FD" ++ data ++ "^FS" ++ newline.

Definition tail_line : string := "^PQ1,0,1,Y^XZ".

Definition doc_medium (uuid t1 t2 t3 t4 : string) : string :=
  medium_head ++ uuid ++ "^FS" ++ newline ++
  field "445,151" "A0N,21,21" t1 ++
  field "445,184" "A0N,21,21" t2 ++
  field "445,217" "A0N,21,21" t3 ++
  field "445,253" "A0N,21,21" t4 ++
  field "462,33" "A0R,21,21" (PyStr.take 8 uuid) ++
  tail_line.

Definition doc_large (uuid t1 t2 t3 t4 t5 : string) : string :=
  large_head ++ uuid ++ "^FS" ++ newline ++
  field "491,171" "A0N,21,21" (PyStr.take 8 uuid) ++
  field "35,67" "A0N,42,40" t1 ++
  field "35,119" "A0N,42,40" t2 ++
  field "35,171" "A0N,42,40" t3 ++
  field "35,226" "A0N,42,40" t4 ++
  field "35,278" "A0N,42,40" t5 ++
  tail_line.

(** The document [print_label] renders for the text of the [setup]
    selector. *)
Definition doc (setup uuid t1 t2 t3 t4 t5 : string) : string :=
  if String.eqb setup "Large" then doc_large uuid t1 t2 t3 t4 t5
  else doc_medium uuid t1 t2 t3 t4.

(** ** Worlds along a batch *)

Definition with_trace (w : World) (evs : list event) : World :=
  mkWorld (app w) (IPS w) (sockets w) (trace w ++ evs).

(** The world once [start_printer] has created its socket and called
    [connect], before the outcome of the call is known. *)
Definition connecting (ip : string) (w : World) : World :=
  let k := List.length (sockets w) in
  mkWorld
    (mkLabelApp (widget (app w)) (Some k) (Some ip) (Some 9100%Z) (Some 1024%Z))
    (IPS w)
    (sockets w ++ [Fresh])
    (trace w ++ [EvSocket k; EvConnect k ip 9100%Z]).

Definition connected (ip : string) (w : World) : World :=
  let k := List.length (sockets w) in
  mkWorld
    (mkLabelApp (widget (app w)) (Some k) (Some ip) (Some 9100%Z) (Some 1024%Z))
    (IPS w)
    (sockets w ++ [Connected ip 9100%Z])
    (trace w ++ [EvSocket k; EvConnect k ip 9100%Z]).

Definition closed_world (w : World) : World :=
  match socket (app w) with
  | Some k =>
      mkWorld (app w) (IPS w) (list_set (sockets w) k Closed)
              (trace w ++ [EvPrint "Exiting"; EvClose k])
  | None => with_trace w [EvPrint "Exiting"]
  end.

(** ** Events *)

Definition opens_or_closes (e : event) : bool :=
  match e with
  | EvSocket _ | EvConnect _ _ _ | EvClose _ => true
  | _ => false
  end.

Definition is_connect (e : event) : bool :=
  match e with EvConnect _ _ _ => true | _ => false end.

Definition is_close (e : event) : bool :=
  match e with EvClose _ => true | _ => false end.

Definition is_send (e : event) : bool :=
  match e with EvSend _ _ => true | _ => false end.

Definition is_render (e : event) : bool :=
  match e with EvUuid _ | EvRender _ => true | _ => false end.

Definition count_events (p : event -> bool) (evs : list event) : nat :=
  List.length (filter p evs).

(** [n] copies on socket [k], each one an identifier, the document
    rendered for it, the write of that document, and the pause. *)
Inductive copy_sequence (render : string -> string) (k : nat)
  : nat -> list event -> Prop :=
| copies_none : copy_sequence render k 0 []
| copies_next (u : string) (n : nat) (rest : list event) :
    copy_sequence render k n rest ->
    copy_sequence render k (S n)
      (EvUuid u :: EvRender (render u) ::
       EvSend k (PyStr.utf8 (render u)) :: EvSleep 2 1000000 :: rest).

Section CopyEvents.

Variable env : Env.
Variables t1 t2 t3 t5 : string.

Definition copy_block (setup t4 : string) (k : nat) (h : list event)
  : list event :=
  let u := uuid1 env h in
  let z := doc setup u t1 t2 t3 t4 t5 in
  [EvUuid u; EvRender z; EvSend k (PyStr.utf8 z); EvSleep 2 1000000].

(** Events of [n] copies made after history [h]. *)
Fixpoint copy_events (setup t4 : string) (k : nat) (h : list event) (n : nat)
  : list event :=
  match n with
  | O => []
  | S n' =>
      let b := copy_block setup t4 k h in
      b ++ copy_events setup t4 k (h ++ b) n'
  end.

End CopyEvents.

(** What a copy needs to go through: the flag unset, a known label size,
    a connected socket. *)
Record ready (setup : string) (k : nat) (w : World) : Prop := mkReady
  { ready_flag : inc_num (text4 (ids (widget (app w)))) = false;
    ready_setup : setup_text (ids (widget (app w))) = setup;
    ready_size : setup = "Large" \/ setup = "Medium";
    ready_socket : socket (app w) = Some k;
    ready_conn : exists host port,
        nth_error (sockets w) k = Some (Connected host port) }.

(** ** Batches *)

Section Batches.

Variable env : Env.

(** The endpoint accepts the connection whenever it is tried. *)
Definition reachable (ip : string) : Prop :=
  forall h, net_connect env h ip 9100%Z = None.

(** [connect] on the endpoint fails with [e] whenever it is tried. *)
Definition unreachable (ip : string) (e : exn) : Prop :=
  forall h, net_connect env h ip 9100%Z = Some e.

(** A batch that goes through: an address was entered and is reachable,
    writes succeed, the number of copies reads as [n], the increment
    flag is unset and the label size is one of the two known ones. *)
Record batch_ok (w : World) (ip setup : string) (n : Z) : Prop := mkBatchOk
  { ok_ip : ip_text (ids (widget (app w))) = ip;
    ok_ip_given : ip <> "";
    ok_reachable : reachable ip;
    ok_send : forall h payload, net_send env h payload = None;
    ok_number : PyStr.int_of_str (number_text (ids (widget (app w)))) = Ok n;
    ok_flag : inc_num (text4 (ids (widget (app w)))) = false;
    ok_setup : setup_text (ids (widget (app w))) = setup;
    ok_size : setup = "Large" \/ setup = "Medium" }.

Definition opening (w : World) (ip : string) : list event :=
  let k := List.length (sockets w) in
  [EvPrint "Printing label"; EvSocket k; EvConnect k ip 9100%Z].

Definition closing (w : World) : list event :=
  [EvPrint "Exiting"; EvClose (List.length (sockets w))].

(** The copies of a batch started in [w]. *)
Definition copies (w : World) (ip setup : string) (n : Z) : list event :=
  let i := ids (widget (app w)) in
  copy_events env (text (text1 i)) (text (text2 i)) (text (text3 i))
              (text (text5 i)) setup (text (text4 i))
              (List.length (sockets w)) (trace w ++ opening w ip) (Z.to_nat n).

Definition batch_done (w : World) (ip setup : string) (n : Z) : World :=
  mkWorld
    (mkLabelApp (widget (app w)) (Some (List.length (sockets w))) (Some ip)
                (Some 9100%Z) (Some 1024%Z))
    (IPS w)
    (sockets w ++ [Closed])
    (trace w ++ opening w ip ++ copies w ip setup n ++ closing w).

End Batches.

(** Calls that open and close the connection, in any order. *)
Inductive conn_call : Type :=
| CallStart (ip : string)
| CallStop.

Fixpoint run_calls (env : Env) (calls : list conn_call) (w : World) : World :=
  match calls with
  | [] => w
  | CallStart ip :: rest => run_calls env rest (snd (start_printer env ip w))
  | CallStop :: rest => run_calls env rest (snd (on_stop w))
  end.

(** The form and the address table are as before. *)
Definition form_untouched (w w' : World) : Prop :=
  widget (app w') = widget (app w) /\ IPS w' = IPS w.

(** ** A concrete session *)

Module Session.

Definition hex_digit (n : nat) : ascii :=
  nth n ["0"; "1"; "2"; "3"; "4"; "5"; "6"; "7"; "8"; "9";
         "a"; "b"; "c"; "d"; "e"; "f"]%char "0"%char.

Fixpoint hex (width : nat) (n : N) : string :=
  match width with
  | O => ""
  | S width' =>
      hex width' (n / 16)%N ++ String (hex_digit (N.to_nat (n mod 16)%N)) ""
  end.

(** A time-based identifier: the low time field advances with every
    identifier handed out. *)
Definition next_uuid (h : list event) : string :=
  hex 8 (1873041898 + N.of_nat (count_events is_render h))%N
  ++ "-ee8a-11e8-a1b1-0242ac110002".

(** Every connection is accepted and every write succeeds. *)
Definition online : Env := mkEnv next_uuid (fun _ _ _ => None) (fun _ _ => None).

(** Every connection is refused. *)
Definition offline : Env :=
  mkEnv next_uuid (fun _ _ _ => Some ConnectionRefusedError) (fun _ _ => None).

Definition printer : string := ips_M default_IPS.

(** The form as filled in for a Medium label, three copies. *)
Definition form (increment_flag : bool) : LabelWidget :=
  mkLabelWidget
    (mkIds printer "3" "Medium"
           (mkLimitText "ID123" 18 false)
           (mkLimitText "Cruise A" 18 false)
           (mkLimitText "2024-06-01" 18 false)
           (mkLimitText "Box 1" 18 increment_flag)
           (mkLimitText "" 0 false))
    "Medium".

(** The application as [build] leaves it, around the given form. *)
Definition built (f : LabelWidget) : World :=
  mkWorld (build f default_IPS) default_IPS [] [].

Definition plain : World := built (form false).

Definition incrementing : World := built (form true).

(** A first line of 21 characters in an otherwise blank form. *)
Definition long_line : LimitText := mkLimitText "Station P1 2024-06-01" 0 false.

Definition long_form : LabelWidget :=
  let b := ids blank_form in
  mkLabelWidget
    (mkIds "" "1" "Medium" long_line (text2 b) (text3 b) (text4 b) (text5 b)) "".

Definition sample_uuid : string := "6fa459ea-ee8a-11e8-a1b1-0242ac110002".

End Session.

(** * The rest of the module *)

(** ** Check boxes of the form *)

(** [b * s] for a [bool] and a [str]: the text once, or not at all. *)
Definition times (b : bool) (s : string) : string := if b then s else "".

Definition set_text (f : LimitText) (t : string) : LimitText :=
  mkLimitText t (max_characters f) (inc_num f).

(** [activate_checkbox(checkbox, id)]; [today] is
    [dt.date.today().isoformat()] and [active] is [checkbox.active]. *)
Definition activate_checkbox (today : string) (w : LabelWidget)
           (active : bool) (id : string) : LabelWidget :=
  let i := ids w in
  if String.eqb id "date" then
    mkLabelWidget
      (mkIds (ip_text i) (number_text i) (setup_text i)
             (set_text (text1 i) (times active today))
             (text2 i) (text3 i) (text4 i) (text5 i))
      (label_size w)
  else if String.eqb id "test" then
    mkLabelWidget
      (mkIds (ip_text i) (number_text i) (setup_text i)
             (text1 i)
             (set_text (text2 i) (times active "This is a test"))
             (text3 i) (text4 i) (text5 i))
      (label_size w)
  else if String.eqb id "inc_num" then
    mkLabelWidget
      (mkIds (ip_text i) (number_text i) (setup_text i)
             (text1 i) (text2 i) (text3 i)
             (mkLimitText (text (text4 i)) (max_characters (text4 i)) true)
             (text5 i))
      (label_size w)
  else w.

(** What the user does to the form through the two handlers. *)
Inductive form_call : Type :=
| SelectSize (size : string)
| Activate (active : bool) (id : string).

Definition form_step (today : string) (ips : Ips) (w : LabelWidget)
           (c : form_call) : LabelWidget :=
  match c with
  | SelectSize size => on_size_select ips w size
  | Activate active id => activate_checkbox today w active id
  end.

Definition form_run (today : string) (ips : Ips) (calls : list form_call)
           (w : LabelWidget) : LabelWidget :=
  fold_left (form_step today ips) calls w.

(** The text of a field is no longer than the field allows. *)
Definition fits (f : LimitText) : bool :=
  (String.length (text f) <=? max_characters f)%nat.

Definition all_fit (w : LabelWidget) : bool :=
  let i := ids w in
  fits (text1 i) && fits (text2 i) && fits (text3 i) && fits (text4 i) &&
  fits (text5 i).

(** The application with another form in place. *)
Definition with_widget (w : World) (f : LabelWidget) : World :=
  mkWorld (mkLabelApp f (socket (app w)) (IP (app w)) (PORT (app w))
                      (BUFFER_SIZE (app w)))
          (IPS w) (sockets w) (trace w).

(** ** The configuration file *)

(** What [yaml.load] hands back: scalars, sequences, and mappings with
    text keys (floating-point scalars are left out). *)
#[local] Unset Elimination Schemes.
Inductive yaml : Type :=
| YNull
| YBool (b : bool)
| YInt (n : Z)
| YStr (s : string)
| YSeq (items : list yaml)
| YMap (entries : list (string * yaml)).
#[local] Set Elimination Schemes.

(** Subscripting raises [KeyError] or [TypeError]. *)
Definition cfg_exn : Type := exn.

(** A mapping is built entry by entry, so of two entries with one key the
    later one stays. *)
Fixpoint map_get (entries : list (string * yaml)) (key : string) : option yaml :=
  match entries with
  | [] => None
  | (k, v) :: rest =>
      match map_get rest key with
      | Some v' => Some v'
      | None => if String.eqb k key then Some v else None
      end
  end.

(** [v[key]] for a text key. *)
Definition subscript (v : yaml) (key : string) : yaml + cfg_exn :=
  match v with
  | YMap entries =>
      match map_get entries key with
      | Some x => inl x
      | None => inr (KeyError key)
      end
  | YNull => inr (TypeError "'NoneType' object is not subscriptable")
  | YBool _ => inr (TypeError "'bool' object is not subscriptable")
  | YInt _ => inr (TypeError "'int' object is not subscriptable")
  | YStr _ => inr (TypeError "string indices must be integers")
  | YSeq _ => inr (TypeError "list indices must be integers or slices, not str")
  end.

(** Truth value of an object in an [if]. *)
Definition truthy (v : yaml) : bool :=
  match v with
  | YNull => false
  | YBool b => b
  | YInt n => negb (n =? 0)%Z
  | YStr s => negb (String.eqb s "")
  | YSeq items => match items with [] => false | _ => true end
  | YMap entries => match entries with [] => false | _ => true end
  end.

(** The table [IPS] as [read_config] sees it: whatever object the file
    gives is stored. *)
Record IpsTable : Type := mkIpsTable
  { tab_M : yaml;
    tab_L : yaml }.

Definition table_of (ips : Ips) : IpsTable :=
  mkIpsTable (YStr (ips_M ips)) (YStr (ips_L ips)).

(** The table read back as addresses, when both entries are texts. *)
Definition ips_of (t : IpsTable) : option Ips :=
  match tab_M t, tab_L t with
  | YStr m, YStr l => Some (mkIps m l)
  | _, _ => None
  end.

(** [cfg['ips'][key]]. *)
Definition cfg_ip (cfg : yaml) (key : string) : yaml + cfg_exn :=
  match subscript cfg "ips" with
  | inl ips => subscript ips key
  | inr e => inr e
  end.

(** [read_config()]: [config] is the content of [config.yaml] as loaded,
    [None] when there is no such file.  Returns the exception raised, if
    any, and the table as it then stands. *)
Definition read_config (config : option yaml) (t : IpsTable)
  : option cfg_exn * IpsTable :=
  match config with
  | None => (None, t)
  | Some cfg =>
      match cfg_ip cfg "medium" with
      | inr e => (Some e, t)
      | inl m =>
          let t1 := if truthy m then mkIpsTable m (tab_L t) else t in
          match cfg_ip cfg "large" with
          | inr e => (Some e, t1)
          | inl l =>
              (None, if truthy l then mkIpsTable (tab_M t1) l else t1)
          end
      end
  end.

(** ** Reading documents and traces *)

Fixpoint contains_char (c : ascii) (s : string) : bool :=
  match s with
  | EmptyString => false
  | String x rest => Ascii.eqb x c || contains_char c rest
  end.

(** The control character of the label language does not occur. *)
Definition no_caret (s : string) : bool := negb (contains_char "^" s).

(** What closes the first field of a Medium label and opens the second. *)
Definition medium_separator : string :=
  "^FS" ++ newline ++ "^FT445,184^A0N,21,21^FH\^FD".

(** Every character is one of ['0'..'9']. *)
Fixpoint digits_only (s : string) : bool :=
  match s with
  | EmptyString => true
  | String c rest => PyStr.is_digit c && digits_only rest
  end.

Fixpoint has_digit (s : string) : bool :=
  match s with
  | EmptyString => false
  | String c rest => PyStr.is_digit c || has_digit rest
  end.

(** The characters of a text that are not digits, in order. *)
Fixpoint non_digits (s : string) : string :=
  match s with
  | EmptyString => EmptyString
  | String c rest =>
      if PyStr.is_digit c then non_digits rest else String c (non_digits rest)
  end.

Definition is_uuid (e : event) : bool :=
  match e with EvUuid _ => true | _ => false end.

(** The identifiers drawn, in order. *)
Fixpoint uuids_of (evs : list event) : list string :=
  match evs with
  | [] => []
  | EvUuid u :: rest => u :: uuids_of rest
  | _ :: rest => uuids_of rest
  end.

(** The events of a batch whose write fails after [j] copies that went
    through: those copies, then the identifier, the document and the write
    of the copy that fails. *)
Definition failed_copy (env : Env) (t1 t2 t3 t5 setup t4 : string) (k : nat)
           (h : list event) (j : nat) : list event :=
  let done := copy_events env t1 t2 t3 t5 setup t4 k h j in
  let u := uuid1 env (h ++ done) in
  let z := doc setup u t1 t2 t3 t4 t5 in
  done ++ [EvUuid u; EvRender z; EvSend k (PyStr.utf8 z)].

(** The trace of [w'] continues that of [w]. *)
Definition grows (w w' : World) : Prop :=
  exists evs, trace w' = (trace w ++ evs)%list.

(** ** More of the concrete session *)

Module Session2.

(** Identifiers that count up in decimal. *)
Definition counting_uuid (h : list event) : string :=
  "0242ac110002-" ++ PyStr.decimal (Z.of_nat (count_events is_uuid h)).

Definition counting : Env :=
  mkEnv counting_uuid (fun _ _ _ => None) (fun _ _ => None).

(** The connection is accepted; the first write succeeds, later ones fail
    with a broken pipe. *)
Definition breaking : Env :=
  mkEnv Session.next_uuid (fun _ _ _ => None)
        (fun h _ => if (count_events is_send h <? 1)%nat then None
                    else Some (OSError "Broken pipe")).

(** [connect] fails on encoding the host name. *)
Definition bad_host : Env :=
  mkEnv Session.next_uuid
        (fun _ _ _ => Some (ValueError "encoding with 'idna' codec failed"))
        (fun _ _ => None).

Definition with_number (number : string) (f : LabelWidget) : LabelWidget :=
  let i := ids f in
  mkLabelWidget
    (mkIds (ip_text i) number (setup_text i)
           (text1 i) (text2 i) (text3 i) (text4 i) (text5 i))
    (label_size f).

Definition with_setup (setup : string) (f : LabelWidget) : LabelWidget :=
  let i := ids f in
  mkLabelWidget
    (mkIds (ip_text i) (number_text i) setup
           (text1 i) (text2 i) (text3 i) (text4 i) (text5 i))
    (label_size f).

Definition with_ip (ip : string) (f : LabelWidget) : LabelWidget :=
  let i := ids f in
  mkLabelWidget
    (mkIds ip (number_text i) (setup_text i)
           (text1 i) (text2 i) (text3 i) (text4 i) (text5 i))
    (label_size f).

Definition world_of (f : LabelWidget) : World :=
  mkWorld (mkLabelApp f None None None None) default_IPS [] [].

(** A configuration file naming a Medium printer only. *)
Definition medium_only : yaml :=
  YMap [("ips", YMap [("medium", YStr "10.0.0.7"); ("large", YNull)])].

End Session2.

(** ** A host name that cannot be encoded *)

Module Session3.

(** An address typed with a letter outside ASCII and a doubled point:
    [printer.], e-acute, [..local]. *)
Definition mistyped : string := "printer." ++ String "233" "..local".

(** [connect] gives up on that name before anything reaches the network:
    the name has an empty label and cannot be encoded for the resolver.
    CPython raises [TypeError] for it, which is not an [OSError]. *)
Definition encoding_fails : Env :=
  mkEnv Session.next_uuid
        (fun _ host _ =>
           if String.eqb host mistyped
           then Some (TypeError "encoding of hostname failed")
           else None)
        (fun _ _ => None).

Definition typo : World :=
  Session2.world_of (Session2.with_ip mistyped (Session.form false)).

End Session3.

(** * Properties *)

Unset Implicit Arguments.

(** ** Strings and lists *)

Lemma append_assoc (a b c : string) : (a ++ b) ++ c = a ++ (b ++ c).
Proof. induction a as [|x a IH]; simpl; [reflexivity | now rewrite IH]. Qed.

Lemma length_append (a b : string) :
  String.length (a ++ b) = String.length a + String.length b.
Proof. induction a as [|x a IH]; simpl; [reflexivity | now rewrite IH]. Qed.

Lemma take_length (n : nat) :
  forall t, String.length (PyStr.take n t) = Nat.min n (String.length t).
Proof.
  unfold PyStr.take.
  induction n as [|n IH]; intros [|c t]; cbn; try reflexivity.
  now rewrite IH.
Qed.

Lemma take_take (n : nat) :
  forall t, PyStr.take n (PyStr.take n t) = PyStr.take n t.
Proof.
  unfold PyStr.take.
  induction n as [|n IH]; intros [|c t]; cbn; try reflexivity.
  now rewrite IH.
Qed.

Lemma eqb_empty_false (s : string) : s <> "" -> String.eqb s "" = false.
Proof. intros H. now apply String.eqb_neq. Qed.

Lemma list_set_last {A : Type} (l : list A) (a b : A) :
  list_set (l ++ [a]) (List.length l) b = (l ++ [b])%list.
Proof. induction l as [|x l IH]; simpl; [reflexivity | now rewrite IH]. Qed.

Lemma nth_error_last {A : Type} (l : list A) (a : A) :
  nth_error (l ++ [a])%list (List.length l) = Some a.
Proof. induction l as [|x l IH]; simpl; [reflexivity | exact IH]. Qed.

Lemma list_set_twice {A : Type} (l : list A) (i : nat) (a b : A) :
  list_set (list_set l i a) i b = list_set l i b.
Proof.
  revert i; induction l as [|x l IH]; intros [|i]; simpl; auto.
  now rewrite IH.
Qed.

(** ** Rendering *)

Lemma create_label_eq (uuid t1 t2 t3 t4 : string) :
  create_label uuid t1 t2 t3 t4 = Ok (doc_medium uuid t1 t2 t3 t4).
Proof.
  unfold create_label, PyStr.format, doc_medium, field.
  cbn -[PyStr.take append].
  repeat (rewrite ?append_assoc; cbn -[PyStr.take append]).
  reflexivity.
Qed.

Lemma create_large_eq (uuid t1 t2 t3 t4 t5 : string) :
  create_large uuid t1 t2 t3 t4 t5 = Ok (doc_large uuid t1 t2 t3 t4 t5).
Proof.
  unfold create_large, PyStr.format, doc_large, field.
  cbn -[PyStr.take append].
  repeat (rewrite ?append_assoc; cbn -[PyStr.take append]).
  reflexivity.
Qed.



(** ** The form *)

Lemma change_size_twice (f : LimitText) (m : nat) :
  change_size (change_size f m) m = change_size f m.
Proof. unfold change_size; cbn. now rewrite take_take. Qed.


(** ** Running the methods *)

Create HintDb py_monad.
#[global] Hint Unfold bind ret raise lift gets modify emit set_app set_sock
  print Alert sleep_2us try_except : py_monad.

Ltac run_monad := autounfold with py_monad; cbn.

#[global] Arguments create_label : simpl never.
#[global] Arguments create_large : simpl never.
#[global] Arguments doc_medium : simpl never.
#[global] Arguments doc_large : simpl never.
#[global] Arguments doc : simpl never.
#[global] Arguments PyStr.utf8 : simpl never.
#[global] Arguments PyStr.int_of_str : simpl never.

Lemma with_trace_app (w : World) (a b : list event) :
  with_trace (with_trace w a) b = with_trace w (a ++ b).
Proof. unfold with_trace; cbn. now rewrite <- app_assoc. Qed.

Lemma with_trace_nil (w : World) : with_trace w [] = w.
Proof. destruct w; unfold with_trace; cbn. now rewrite app_nil_r. Qed.

Lemma ready_with_trace (setup : string) (k : nat) (w : World)
      (evs : list event) :
  ready setup k w -> ready setup k (with_trace w evs).
Proof. intros [H1 H2 H3 H4 H5]; constructor; assumption. Qed.

Lemma on_stop_run (w : World) : on_stop w = (Ok true, closed_world w).
Proof.
  unfold on_stop, closed_world, with_trace. run_monad.
  destruct (socket (app w)) as [k|]; cbn; [|reflexivity].
  now rewrite <- app_assoc.
Qed.

Lemma closed_world_twice (w : World) :
  app (closed_world (closed_world w)) = app (closed_world w) /\
  sockets (closed_world (closed_world w)) = sockets (closed_world w).
Proof.
  unfold closed_world.
  destruct (socket (app w)) as [k|] eqn:Hs; cbn; rewrite Hs; cbn.
  - now rewrite list_set_twice.
  - split; reflexivity.
Qed.

Lemma inc_nums_run (t : string) (w : World) :
  inc_nums t w = (Raise (NameError "re"), w).
Proof. reflexivity. Qed.

Section Runs.

Variable env : Env.

Lemma start_printer_run (ip : string) (w : World) :
  start_printer env ip w =
  match net_connect env (trace w ++ [EvSocket (List.length (sockets w))]) ip 9100%Z with
  | None => (Ok tt, connected ip w)
  | Some e => (Raise e, connecting ip w)
  end.
Proof.
  unfold start_printer, connecting, connected. run_monad.
  destruct (net_connect env _ ip 9100%Z) as [e|]; cbn.
  - now rewrite <- app_assoc.
  - now rewrite list_set_last, <- app_assoc.
Qed.

Lemma print_copy_flag_run (t1 t2 t3 t5 : string) (l : loop_locals) (w : World) :
  inc_num (text4 (ids (widget (app w)))) = true ->
  print_copy env t1 t2 t3 t5 l w = (Raise (NameError "inc_nums"), w).
Proof.
  intros Hflag. unfold print_copy. run_monad. rewrite Hflag. reflexivity.
Qed.

Hypothesis send_ok : forall h payload, net_send env h payload = None.

Lemma print_copy_run (t1 t2 t3 t5 setup : string) (k : nat)
      (l : loop_locals) (w : World) :
  ready setup k w ->
  print_copy env t1 t2 t3 t5 l w =
  (Ok (mkLocals (l_text4 l)
                (Some (doc setup (uuid1 env (trace w)) t1 t2 t3 (l_text4 l) t5))),
   with_trace w (copy_block env t1 t2 t3 t5 setup (l_text4 l) k (trace w))).
Proof.
  intros [Hflag Hsetup Hsize Hsock [host [port Hconn]]].
  unfold print_copy, new_hex_uuid, send_to_printer, copy_block, with_trace.
  run_monad. rewrite Hflag, Hsetup. cbn.
  destruct Hsize as [-> | ->]; unfold doc; cbn.
  - rewrite create_large_eq. cbn. rewrite Hsock. cbn.
    rewrite Hconn, send_ok. cbn.
    now rewrite <- !app_assoc.
  - rewrite create_label_eq. cbn. rewrite Hsock. cbn.
    rewrite Hconn, send_ok. cbn.
    now rewrite <- !app_assoc.
Qed.

Lemma for_range_run (t1 t2 t3 t5 setup : string) (k : nat) (n : nat) :
  forall (l : loop_locals) (w : World),
    ready setup k w ->
    exists l',
      for_range n (print_copy env t1 t2 t3 t5) l w =
      (Ok l',
       with_trace w (copy_events env t1 t2 t3 t5 setup (l_text4 l) k (trace w) n)) /\
      l_text4 l' = l_text4 l.
Proof.
  induction n as [|n IH]; intros l w Hr.
  - exists l. cbn. now rewrite with_trace_nil.
  - cbn [for_range copy_events]. unfold bind at 1.
    rewrite (print_copy_run t1 t2 t3 t5 setup k l w Hr).
    destruct (IH (mkLocals (l_text4 l)
                    (Some (doc setup (uuid1 env (trace w)) t1 t2 t3 (l_text4 l) t5)))
                 (with_trace w (copy_block env t1 t2 t3 t5 setup (l_text4 l) k (trace w)))
                 (ready_with_trace setup k w _ Hr)) as [l' [Hl' Ht]].
    exists l'. rewrite Hl'. cbn [l_text4 trace with_trace].
    now rewrite with_trace_app.
Qed.

End Runs.

#[global] Arguments start_printer : simpl never.
#[global] Arguments on_stop : simpl never.
#[global] Arguments print_copy : simpl never.
#[global] Arguments for_range : simpl never.

(** ** Whole batches *)

Section BatchRuns.

Variable env : Env.

Lemma ready_connected (w : World) (ip setup : string) :
  inc_num (text4 (ids (widget (app w)))) = false ->
  setup_text (ids (widget (app w))) = setup ->
  setup = "Large" \/ setup = "Medium" ->
  ready setup (List.length (sockets w))
        (connected ip (with_trace w [EvPrint "Printing label"])).
Proof.
  intros Hf Hs Hz. constructor; cbn; try assumption; try reflexivity.
  exists ip, 9100%Z. apply nth_error_last.
Qed.

Lemma print_label_ok_run (w : World) (ip setup : string) (n : Z) :
  batch_ok env w ip setup n ->
  print_label env w = (Ok tt, batch_done env w ip setup n).
Proof.
  intros [Hip Hne Hreach Hsend Hnum Hflag Hsetup Hsize].
  unfold print_label. run_monad. rewrite Hip, (eqb_empty_false ip Hne). cbn.
  rewrite start_printer_run. cbn. rewrite Hreach. cbn.
  rewrite Hnum. cbn.
  destruct (for_range_run env Hsend
              (text (text1 (ids (widget (app w)))))
              (text (text2 (ids (widget (app w)))))
              (text (text3 (ids (widget (app w)))))
              (text (text5 (ids (widget (app w)))))
              setup (List.length (sockets w)) (Z.to_nat n)
              (mkLocals (text (text4 (ids (widget (app w))))) None)
              (connected ip (with_trace w [EvPrint "Printing label"]))
              (ready_connected w ip setup Hflag Hsetup Hsize)) as [l' [Hrun _]].
  fold (with_trace w [EvPrint "Printing label"]).
  rewrite Hrun, on_stop_run.
  unfold closed_world, batch_done, copies, opening, closing, connected,
    with_trace.
  cbn. rewrite list_set_last. repeat rewrite <- app_assoc. reflexivity.
Qed.

Lemma print_label_flag_run (w : World) (ip : string) (n : Z) :
  ip_text (ids (widget (app w))) = ip ->
  ip <> "" ->
  reachable env ip ->
  PyStr.int_of_str (number_text (ids (widget (app w)))) = Ok n ->
  (0 < n)%Z ->
  inc_num (text4 (ids (widget (app w)))) = true ->
  print_label env w =
  (Raise (NameError "inc_nums"),
   connected ip (with_trace w [EvPrint "Printing label"])).
Proof.
  intros Hip Hne Hreach Hnum Hpos Hflag.
  unfold print_label. run_monad. rewrite Hip, (eqb_empty_false ip Hne). cbn.
  rewrite start_printer_run. cbn. rewrite Hreach. cbn.
  rewrite Hnum. cbn.
  destruct (Z.to_nat n) as [|m] eqn:Hn; [lia |].
  unfold for_range. unfold bind at 1.
  fold (with_trace w [EvPrint "Printing label"]).
  rewrite print_copy_flag_run by exact Hflag.
  reflexivity.
Qed.

Lemma print_label_refused_run (w : World) (ip : string) (e : exn) :
  ip_text (ids (widget (app w))) = ip ->
  ip <> "" ->
  unreachable env ip e ->
  isinstance e ClsOSError = true ->
  print_label env w =
  (Ok tt,
   with_trace (connecting ip (with_trace w [EvPrint "Printing label"]))
              [EvAlert "Wrong IP" "Please input a valid/correct IP"]).
Proof.
  intros Hip Hne Hdown Hcls.
  unfold print_label. run_monad. rewrite Hip, (eqb_empty_false ip Hne). cbn.
  rewrite start_printer_run. cbn. rewrite Hdown. cbn.
  rewrite Hcls, orb_true_r. reflexivity.
Qed.

Lemma print_label_uncaught_run (w : World) (ip : string) (e : exn) :
  ip_text (ids (widget (app w))) = ip ->
  ip <> "" ->
  unreachable env ip e ->
  isinstance e ClsOSError = false ->
  print_label env w =
  (Raise e, connecting ip (with_trace w [EvPrint "Printing label"])).
Proof.
  intros Hip Hne Hdown Hcls.
  assert (Hrefused : isinstance e ClsConnectionRefusedError = false)
    by (destruct e; cbn in Hcls |- *; congruence).
  unfold print_label. run_monad. rewrite Hip, (eqb_empty_false ip Hne). cbn.
  rewrite start_printer_run. cbn. rewrite Hdown. cbn.
  rewrite Hrefused, Hcls. reflexivity.
Qed.

Lemma print_label_no_ip_run (w : World) :
  ip_text (ids (widget (app w))) = "" ->
  print_label env w =
  (Ok tt,
   with_trace w [EvPrint "Printing label";
                 EvAlert "Need IP" "Please input an IP"]).
Proof.
  intros Hip. unfold print_label, with_trace. run_monad. rewrite Hip. cbn.
  now rewrite <- app_assoc.
Qed.

End BatchRuns.

(** ** Shape of the copy events *)

Lemma count_events_app (p : event -> bool) (a b : list event) :
  count_events p (a ++ b) = count_events p a + count_events p b.
Proof. unfold count_events. now rewrite filter_app, length_app. Qed.

Section CopyShape.

Variable env : Env.
Variables t1 t2 t3 t5 setup t4 : string.
Variable k : nat.

Lemma copy_events_sequence (n : nat) :
  forall h,
    copy_sequence (fun u => doc setup u t1 t2 t3 t4 t5) k n
                  (copy_events env t1 t2 t3 t5 setup t4 k h n).
Proof.
  induction n as [|n IH]; intros h.
  - constructor.
  - cbn [copy_events]. unfold copy_block. cbn [List.app].
    apply (@copies_next (fun u => doc setup u t1 t2 t3 t4 t5) k (uuid1 env h)).
    apply IH.
Qed.

Lemma copy_sequence_quiet (render : string -> string) (n : nat)
      (evs : list event) :
  copy_sequence render k n evs ->
  forall e, In e evs -> opens_or_closes e = false.
Proof.
  induction 1 as [|u n rest _ IH]; intros e Hin.
  - destruct Hin.
  - cbn in Hin.
    destruct Hin as [<- | [<- | [<- | [<- | Hin]]]]; try reflexivity.
    now apply IH.
Qed.

Lemma copy_sequence_no_connect (render : string -> string) (n : nat)
      (evs : list event) :
  copy_sequence render k n evs ->
  count_events is_connect evs = 0 /\ count_events is_close evs = 0.
Proof.
  unfold count_events.
  induction 1 as [|u n rest _ IH]; cbn; [split; reflexivity | exact IH].
Qed.

Lemma copy_sequence_sends (render : string -> string) (n : nat)
      (evs : list event) :
  copy_sequence render k n evs -> count_events is_send evs = n.
Proof.
  unfold count_events.
  induction 1 as [|u n rest _ IH]; cbn; [reflexivity | now rewrite IH].
Qed.

Lemma copy_sequence_socket (render : string -> string) (n : nat)
      (evs : list event) :
  copy_sequence render k n evs ->
  forall s p, In (EvSend s p) evs -> s = k.
Proof.
  induction 1 as [|u n rest _ IH]; intros s p Hin.
  - destruct Hin.
  - cbn in Hin.
    destruct Hin as [H | [H | [H | [H | Hin]]]]; try discriminate.
    + now inversion H.
    + now apply (IH s p).
Qed.

End CopyShape.

(** ** What a batch leaves of the form *)

Lemma form_untouched_refl (w : World) : form_untouched w w.
Proof. split; reflexivity. Qed.

Lemma form_untouched_trans (a b c : World) :
  form_untouched a b -> form_untouched b c -> form_untouched a c.
Proof. intros [H1 H2] [H3 H4]. split; congruence. Qed.

Section Frame.

Variable env : Env.

Lemma print_copy_frame (t1 t2 t3 t5 : string) (l : loop_locals) (w : World) :
  inc_num (text4 (ids (widget (app w)))) = false ->
  form_untouched w (snd (print_copy env t1 t2 t3 t5 l w)).
Proof.
  intros Hflag.
  unfold print_copy, new_hex_uuid, send_to_printer, form_untouched.
  run_monad. rewrite Hflag. cbn.
  destruct (String.eqb (setup_text (ids (widget (app w)))) "Large").
  - rewrite create_large_eq. cbn.
    destruct (socket (app w)) as [k|]; cbn; [|split; reflexivity].
    destruct (nth_error (sockets w) k) as [[| host port |]|]; cbn;
      try (split; reflexivity).
    destruct (net_send env _ _); cbn; split; reflexivity.
  - destruct (String.eqb (setup_text (ids (widget (app w)))) "Medium").
    + rewrite create_label_eq. cbn.
      destruct (socket (app w)) as [k|]; cbn; [|split; reflexivity].
      destruct (nth_error (sockets w) k) as [[| host port |]|]; cbn;
        try (split; reflexivity).
      destruct (net_send env _ _); cbn; split; reflexivity.
    + cbn. destruct (l_zpl l) as [z|]; cbn; [|split; reflexivity].
      destruct (socket (app w)) as [k|]; cbn; [|split; reflexivity].
      destruct (nth_error (sockets w) k) as [[| host port |]|]; cbn;
        try (split; reflexivity).
      destruct (net_send env _ _); cbn; split; reflexivity.
Qed.

Lemma for_range_frame (t1 t2 t3 t5 : string) (n : nat) :
  forall (l : loop_locals) (w : World),
    inc_num (text4 (ids (widget (app w)))) = false ->
    form_untouched w (snd (for_range n (print_copy env t1 t2 t3 t5) l w)).
Proof.
  induction n as [|n IH]; intros l w Hflag.
  - apply form_untouched_refl.
  - unfold for_range; fold (@for_range loop_locals). unfold bind at 1.
    pose proof (print_copy_frame t1 t2 t3 t5 l w Hflag) as Hstep.
    destruct (print_copy env t1 t2 t3 t5 l w) as [[l1|e] w1]; cbn in Hstep.
    + apply form_untouched_trans with (b := w1); [exact Hstep |].
      apply IH. destruct Hstep as [Hw _]. now rewrite Hw.
    + exact Hstep.
Qed.

Lemma print_label_frame (w : World) :
  inc_num (text4 (ids (widget (app w)))) = false ->
  form_untouched w (snd (print_label env w)).
Proof.
  intros Hflag. unfold print_label. run_monad.
  destruct (String.eqb (ip_text (ids (widget (app w)))) ""); cbn;
    [split; reflexivity |].
  rewrite start_printer_run. cbn.
  destruct (net_connect env _ _ _) as [e|]; cbn.
  - destruct (isinstance e ClsConnectionRefusedError || _);
      cbn; split; reflexivity.
  - destruct (PyStr.int_of_str _) as [n|e]; cbn; [|split; reflexivity].
    match goal with
    | |- context [for_range ?n (print_copy env ?a ?b ?c ?d) ?l ?w1] =>
        pose proof (for_range_frame a b c d n l w1 Hflag) as Hloop;
        destruct (for_range n (print_copy env a b c d) l w1) as [[l1|e] w2]
    end; cbn in Hloop.
    + rewrite on_stop_run. cbn.
      destruct Hloop as [Hw Hi]. unfold closed_world.
      destruct (socket (app w2)); cbn; split; assumption.
    + exact Hloop.
Qed.

End Frame.

(** ** The concrete session *)

Lemma printer_given : Session.printer <> "".
Proof. apply String.eqb_neq. reflexivity. Defined.

Lemma online_reachable : reachable Session.online Session.printer.
Proof. intro h. reflexivity. Defined.

Lemma offline_refuses :
  unreachable Session.offline Session.printer ConnectionRefusedError.
Proof. intro h. reflexivity. Defined.

Lemma plain_batch_ok :
  batch_ok Session.online Session.plain Session.printer "Medium" 3.
Proof.
  constructor; try reflexivity.
  - exact printer_given.
  - exact online_reachable.
  - right. reflexivity.
Defined.

(** * The claims *)

(** ** Batches with the increment flag set *)

(** C1, on the code: with the form filled in as in the scenario (Medium,
    "ID123" / "Cruise A" / "2024-06-01" / "Box 1", three copies, increment
    flag set) and a reachable printer, [print_label] connects and then
    raises [NameError] in the first copy.  No document is rendered or
    sent, the form still reads "Box 1", and the socket is left connected:
    [on_stop] is never reached. *)
Theorem scenario_raises_before_first_copy (env : Env) :
  reachable env Session.printer ->
  exists w' : World,
    print_label env Session.incrementing = (Raise (NameError "inc_nums"), w') /\
    trace w' =
      [EvPrint "Printing label"; EvSocket 0; EvConnect 0 Session.printer 9100%Z] /\
    count_events is_send (trace w') = 0 /\
    count_events is_render (trace w') = 0 /\
    count_events opens_or_closes (trace w') = 2 /\
    text (text4 (ids (widget (app w')))) = "Box 1" /\
    sock_of w' = Some (Connected Session.printer 9100%Z).
Proof.
  intros Hreach.
  exists (connected Session.printer
            (with_trace Session.incrementing [EvPrint "Printing label"])).
  split.
  - apply print_label_flag_run with (n := 3%Z);
      try reflexivity; try assumption.
    exact printer_given.
  - repeat split.
Qed.

Lemma scenario_raises_before_first_copy_witness :
  reachable Session.online Session.printer /\
  exists w' : World,
    print_label Session.online Session.incrementing =
      (Raise (NameError "inc_nums"), w') /\
    trace w' =
      [EvPrint "Printing label"; EvSocket 0; EvConnect 0 Session.printer 9100%Z] /\
    count_events is_send (trace w') = 0 /\
    count_events is_render (trace w') = 0 /\
    count_events opens_or_closes (trace w') = 2 /\
    text (text4 (ids (widget (app w')))) = "Box 1" /\
    sock_of w' = Some (Connected Session.printer 9100%Z).
Proof.
  split.
  - exact online_reachable.
  - exact (scenario_raises_before_first_copy Session.online online_reachable).
Defined.

(** C4: a batch that has connected, asks for at least one copy and has
    the increment flag set stops in its first copy with [NameError]:
    [inc_nums] is an attribute of the class and not a module-level name,
    so the bare name does not resolve; nothing has been rendered or sent at
    that point.  The body of [inc_nums] in turn refers to [re], which the
    module never imports, so calling it raises [NameError] as well. *)
Theorem increment_flag_raises_NameError
        (env : Env) (w : World) (ip : string) (n : Z) :
  ip_text (ids (widget (app w))) = ip ->
  ip <> "" ->
  reachable env ip ->
  PyStr.int_of_str (number_text (ids (widget (app w)))) = Ok n ->
  (0 < n)%Z ->
  inc_num (text4 (ids (widget (app w)))) = true ->
  exists w' : World,
    print_label env w = (Raise (NameError "inc_nums"), w') /\
    trace w' =
      (trace w ++
       [EvPrint "Printing label"; EvSocket (List.length (sockets w));
        EvConnect (List.length (sockets w)) ip 9100%Z])%list /\
    count_events is_render (trace w') = count_events is_render (trace w) /\
    count_events is_send (trace w') = count_events is_send (trace w) /\
    bound_in "inc_nums" class_LabelApp = true /\
    lookup_global "inc_nums" = Raise (NameError "inc_nums") /\
    lookup_global "re" = Raise (NameError "re") /\
    (forall t w0, inc_nums t w0 = (Raise (NameError "re"), w0)).
Proof.
  intros Hip Hne Hreach Hnum Hpos Hflag.
  exists (connected ip (with_trace w [EvPrint "Printing label"])).
  split; [apply print_label_flag_run with (n := n); assumption |].
  split; [cbn; now rewrite <- app_assoc |].
  split; [unfold connected, with_trace; cbn [trace];
          rewrite !count_events_app; unfold count_events; cbn; lia |].
  split; [unfold connected, with_trace; cbn [trace];
          rewrite !count_events_app; unfold count_events; cbn; lia |].
  repeat split.
Qed.

Lemma increment_flag_raises_NameError_witness :
  (ip_text (ids (widget (app Session.incrementing))) = Session.printer /\
   Session.printer <> "" /\
   reachable Session.online Session.printer /\
   PyStr.int_of_str (number_text (ids (widget (app Session.incrementing)))) = Ok 3%Z /\
   (0 < 3)%Z /\
   inc_num (text4 (ids (widget (app Session.incrementing)))) = true) /\
  exists w' : World,
    print_label Session.online Session.incrementing =
      (Raise (NameError "inc_nums"), w') /\
    trace w' =
      [EvPrint "Printing label"; EvSocket 0; EvConnect 0 Session.printer 9100%Z] /\
    count_events is_render (trace w') = 0 /\
    count_events is_send (trace w') = 0 /\
    bound_in "inc_nums" class_LabelApp = true /\
    lookup_global "inc_nums" = Raise (NameError "inc_nums") /\
    lookup_global "re" = Raise (NameError "re") /\
    (forall t w0, inc_nums t w0 = (Raise (NameError "re"), w0)).
Proof.
  split.
  - repeat split; try exact printer_given; try exact online_reachable.
  - exact (increment_flag_raises_NameError
             Session.online Session.incrementing Session.printer 3
             eq_refl printer_given online_reachable eq_refl eq_refl eq_refl).
Defined.

(** ** The increment helper *)

(** C3, on the code: called on any of the four texts, [inc_nums] raises
    [NameError] for the unimported [re] and returns nothing.  The
    substitution its [return] statement spells out, evaluated with [re.sub]
    in hand, gives the texts the claim lists. *)
Theorem inc_nums_raises_on_examples (w : World) :
  inc_nums "A7B" w = (Raise (NameError "re"), w) /\
  inc_nums "v1.5" w = (Raise (NameError "re"), w) /\
  inc_nums "no digits" w = (Raise (NameError "re"), w) /\
  inc_nums "x007y" w = (Raise (NameError "re"), w) /\
  PyRe.sub (fun m => increment m 1) "A7B" = Ok "A8B" /\
  PyRe.sub (fun m => increment m 1) "v1.5" = Ok "v2.5" /\
  PyRe.sub (fun m => increment m 1) "no digits" = Ok "no digits" /\
  PyRe.sub (fun m => increment m 1) "x007y" = Ok "x8y".
Proof.
  repeat split; vm_compute; reflexivity.
Qed.

(** ** Failing to connect *)

(** C5, as amended: whenever [connect] fails, [print_label] does nothing
    beyond creating the socket and trying to connect it: no identifier is
    drawn, no document rendered, nothing sent, and the socket the
    application holds has never been connected.  What the caller sees
    depends on the exception: an [OSError] (a refused connection
    included) is caught, the "Wrong IP" alert is shown and [print_label]
    returns; any other exception is not caught, no alert is shown and the
    exception leaves [print_label] as it is. *)
Theorem connect_failure_sends_nothing
        (env : Env) (w : World) (ip : string) (e : exn) :
  ip_text (ids (widget (app w))) = ip ->
  ip <> "" ->
  unreachable env ip e ->
  exists w' : World,
    print_label env w =
      (if isinstance e ClsOSError then Ok tt else Raise e, w') /\
    trace w' =
      (trace w ++
       [EvPrint "Printing label"; EvSocket (List.length (sockets w));
        EvConnect (List.length (sockets w)) ip 9100%Z] ++
       (if isinstance e ClsOSError
        then [EvAlert "Wrong IP" "Please input a valid/correct IP"]
        else []))%list /\
    count_events is_send (trace w') = count_events is_send (trace w) /\
    count_events is_render (trace w') = count_events is_render (trace w) /\
    socket (app w') = Some (List.length (sockets w)) /\
    sock_of w' = Some Fresh.
Proof.
  intros Hip Hne Hdown.
  destruct (isinstance e ClsOSError) eqn:Hcls.
  - exists (with_trace (connecting ip (with_trace w [EvPrint "Printing label"]))
                       [EvAlert "Wrong IP" "Please input a valid/correct IP"]).
    split; [apply print_label_refused_run with (e := e); assumption |].
    unfold count_events, sock_of. cbn.
    repeat rewrite <- app_assoc. cbn.
    repeat split.
    + rewrite filter_app. cbn. now rewrite app_nil_r.
    + rewrite filter_app. cbn. now rewrite app_nil_r.
    + apply nth_error_last.
  - exists (connecting ip (with_trace w [EvPrint "Printing label"])).
    split; [apply print_label_uncaught_run; assumption |].
    unfold count_events, sock_of. cbn.
    repeat rewrite <- app_assoc. cbn.
    repeat split.
    + rewrite filter_app. cbn. now rewrite app_nil_r.
    + rewrite filter_app. cbn. now rewrite app_nil_r.
    + apply nth_error_last.
Qed.

Lemma connect_failure_sends_nothing_witness :
  (ip_text (ids (widget (app Session.plain))) = Session.printer /\
   Session.printer <> "" /\
   unreachable Session.offline Session.printer ConnectionRefusedError) /\
  exists w' : World,
    print_label Session.offline Session.plain = (Ok tt, w') /\
    trace w' =
      [EvPrint "Printing label"; EvSocket 0;
       EvConnect 0 Session.printer 9100%Z;
       EvAlert "Wrong IP" "Please input a valid/correct IP"] /\
    count_events is_send (trace w') = 0 /\
    count_events is_render (trace w') = 0 /\
    socket (app w') = Some 0 /\
    sock_of w' = Some Fresh.
Proof.
  split.
  - repeat split; try exact printer_given; try exact offline_refuses.
  - exact (connect_failure_sends_nothing
             Session.offline Session.plain Session.printer
             ConnectionRefusedError
             eq_refl printer_given offline_refuses).
Defined.

(** C5, as stated, fails: with the address [printer.], e-acute,
    [..local] in the form, [connect] fails with a [TypeError] while it
    encodes the host name.  The handler of [print_label] names
    [ConnectionRefusedError] and [OSError] only, so no alert is shown:
    the caller gets the [TypeError] itself, and the events stop at the
    attempt to connect. *)
Lemma unencodable_host_raises_without_alert :
  ip_text (ids (widget (app Session3.typo))) = Session3.mistyped /\
  Session3.mistyped <> "" /\
  unreachable Session3.encoding_fails Session3.mistyped
              (TypeError "encoding of hostname failed") /\
  isinstance (TypeError "encoding of hostname failed") ClsOSError = false /\
  fst (print_label Session3.encoding_fails Session3.typo) =
    Raise (TypeError "encoding of hostname failed") /\
  trace (snd (print_label Session3.encoding_fails Session3.typo)) =
    [EvPrint "Printing label"; EvSocket 0;
     EvConnect 0 Session3.mistyped 9100%Z] /\
  (forall w', print_label Session3.encoding_fails Session3.typo <> (Ok tt, w')).
Proof.
  assert (Hne : Session3.mistyped <> "") by discriminate.
  assert (Hdown : unreachable Session3.encoding_fails Session3.mistyped
                    (TypeError "encoding of hostname failed"))
    by (intro h; reflexivity).
  pose proof (print_label_uncaught_run Session3.encoding_fails Session3.typo
                Session3.mistyped (TypeError "encoding of hostname failed")
                eq_refl Hne Hdown eq_refl) as Hrun.
  split; [reflexivity |]. split; [exact Hne |]. split; [exact Hdown |].
  split; [reflexivity |].
  rewrite Hrun. split; [reflexivity |]. split; [reflexivity |].
  intros w' H. discriminate H.
Qed.

(** ** Connection life cycle of a batch *)

(** C7: in a batch that goes through, the socket is created and connected
    once, before the first copy; the [n] writes of the copies all go to
    that socket, with no socket created, connected or closed in between;
    and the socket is closed once, after the last copy. *)
Theorem batch_connects_once_closes_once
        (env : Env) (w : World) (ip setup : string) (n : Z) :
  batch_ok env w ip setup n ->
  exists (w' : World) (evs : list event),
    print_label env w = (Ok tt, w') /\
    trace w' =
      (trace w ++
       [EvPrint "Printing label"; EvSocket (List.length (sockets w));
        EvConnect (List.length (sockets w)) ip 9100%Z] ++
       evs ++ [EvPrint "Exiting"; EvClose (List.length (sockets w))])%list /\
    count_events is_connect (trace w') = 1 + count_events is_connect (trace w) /\
    count_events is_close (trace w') = 1 + count_events is_close (trace w) /\
    (forall e, In e evs -> opens_or_closes e = false) /\
    count_events is_send evs = Z.to_nat n /\
    (forall s p, In (EvSend s p) evs -> s = List.length (sockets w)) /\
    nth_error (sockets w') (List.length (sockets w)) = Some Closed.
Proof.
  intros Hok.
  exists (batch_done env w ip setup n), (copies env w ip setup n).
  pose proof (copy_events_sequence env
                (text (text1 (ids (widget (app w)))))
                (text (text2 (ids (widget (app w)))))
                (text (text3 (ids (widget (app w)))))
                (text (text5 (ids (widget (app w)))))
                setup (text (text4 (ids (widget (app w)))))
                (List.length (sockets w))
                (Z.to_nat n) (trace w ++ opening w ip)) as Hseq.
  fold (copies env w ip setup n) in Hseq.
  destruct (copy_sequence_no_connect _ _ _ _ Hseq) as [Hconn Hclose].
  split; [exact (print_label_ok_run env w ip setup n Hok) |].
  split; [reflexivity |].
  split.
  { unfold batch_done; cbn [trace]. rewrite !count_events_app, Hconn.
    unfold count_events; cbn. lia. }
  split.
  { unfold batch_done; cbn [trace]. rewrite !count_events_app, Hclose.
    unfold count_events; cbn. lia. }
  split; [exact (copy_sequence_quiet _ _ _ _ Hseq) |].
  split; [exact (copy_sequence_sends _ _ _ _ Hseq) |].
  split; [exact (copy_sequence_socket _ _ _ _ Hseq) |].
  cbn. apply nth_error_last.
Qed.

Lemma batch_connects_once_closes_once_witness :
  batch_ok Session.online Session.plain Session.printer "Medium" 3 /\
  exists (w' : World) (evs : list event),
    print_label Session.online Session.plain = (Ok tt, w') /\
    trace w' =
      ([EvPrint "Printing label"; EvSocket 0; EvConnect 0 Session.printer 9100%Z] ++
       evs ++ [EvPrint "Exiting"; EvClose 0])%list /\
    count_events is_connect (trace w') = 1 /\
    count_events is_close (trace w') = 1 /\
    (forall e, In e evs -> opens_or_closes e = false) /\
    count_events is_send evs = 3 /\
    (forall s p, In (EvSend s p) evs -> s = 0) /\
    nth_error (sockets w') 0 = Some Closed.
Proof.
  split.
  - exact plain_batch_ok.
  - exact (batch_connects_once_closes_once
             Session.online Session.plain Session.printer "Medium" 3
             plain_batch_ok).
Defined.

(** ** Order of the steps of a copy *)



(** ** Closing *)

(** C10: whatever calls to [start_printer] and [on_stop] came before,
    [on_stop] returns [True] without raising, and a second [on_stop] right
    after it leaves the application object and every socket as they are;
    on an application that never opened a connection (its [socket]
    attribute is [None], as [build] leaves it) [on_stop] changes neither. *)
Theorem on_stop_idempotent (env : Env) (calls : list conn_call) (w0 : World) :
  let w := run_calls env calls w0 in
  let w1 := snd (on_stop w) in
  let w2 := snd (on_stop w1) in
  fst (on_stop w) = Ok true /\
  fst (on_stop w1) = Ok true /\
  app w2 = app w1 /\
  sockets w2 = sockets w1 /\
  (forall f ips socks tr,
      let b := mkWorld (build f ips) ips socks tr in
      fst (on_stop b) = Ok true /\
      app (snd (on_stop b)) = app b /\
      sockets (snd (on_stop b)) = sockets b).
Proof.
  cbn zeta.
  destruct (closed_world_twice (run_calls env calls w0)) as [Ha Hs].
  split; [now rewrite on_stop_run |].
  split; [now rewrite !on_stop_run |].
  split; [now rewrite !on_stop_run |].
  split; [now rewrite !on_stop_run |].
  intros f ips socks tr. rewrite on_stop_run.
  repeat split.
Qed.

(** ** What a batch leaves behind *)

(** C6, as amended: with the increment flag unset, a batch leaves the form
    (every widget text and flag) and the table of default addresses as
    they were, whatever its outcome.  What it may leave changed is the
    application object's [socket], [IP], [PORT] and [BUFFER_SIZE]
    attributes, which [start_printer] overwrites and nothing resets. *)
Theorem batch_leaves_form_untouched (env : Env) (w : World) :
  inc_num (text4 (ids (widget (app w)))) = false ->
  widget (app (snd (print_label env w))) = widget (app w) /\
  IPS (snd (print_label env w)) = IPS w.
Proof.
  intros Hflag. exact (print_label_frame env w Hflag).
Qed.

Lemma batch_leaves_form_untouched_witness :
  inc_num (text4 (ids (widget (app Session.plain)))) = false /\
  widget (app (snd (print_label Session.online Session.plain))) =
    widget (app Session.plain) /\
  IPS (snd (print_label Session.online Session.plain)) = IPS Session.plain.
Proof.
  split.
  - reflexivity.
  - exact (batch_leaves_form_untouched Session.online Session.plain eq_refl).
Defined.

(** C6, as stated, fails: after a batch that went through, the
    application object is not what it was.  It held no socket and no
    address before; afterwards its [socket] attribute refers to the closed
    socket of the batch and [IP] to the address used, and both stay that
    way until the next batch. *)
Lemma batch_changes_application_object :
  fst (print_label Session.online Session.plain) = Ok tt /\
  app (snd (print_label Session.online Session.plain)) <> app Session.plain /\
  socket (app Session.plain) = None /\
  socket (app (snd (print_label Session.online Session.plain))) = Some 0 /\
  sock_of (snd (print_label Session.online Session.plain)) = Some Closed /\
  IP (app Session.plain) = None /\
  IP (app (snd (print_label Session.online Session.plain))) =
    Some Session.printer.
Proof.
  rewrite (print_label_ok_run Session.online Session.plain Session.printer
             "Medium" 3 plain_batch_ok).
  repeat split.
  intro H. apply (f_equal socket) in H. discriminate H.
Qed.

(** ** Field lengths *)





(** ** Identifier slots *)

(** C8, as amended: for every input, the rendered document carries the
    full identifier as the data of the barcode command ([^BX]) and the
    first 8 characters of the identifier in one text field at fixed
    coordinates; each template has one slot for either.  In the Medium
    template that text field is rotated ([^A0R], at 462,33); in the Large
    template it is not ([^A0N], at 491,171), and the template has no
    rotated field at all. *)
Theorem identifier_slots (uuid t1 t2 t3 t4 t5 : string) :
  create_label uuid t1 t2 t3 t4 =
    Ok (medium_head ++ uuid ++ "^FS" ++ newline ++
        field "445,151" "A0N,21,21" t1 ++
        field "445,184" "A0N,21,21" t2 ++
        field "445,217" "A0N,21,21" t3 ++
        field "445,253" "A0N,21,21" t4 ++
        field "462,33" "A0R,21,21" (PyStr.take 8 uuid) ++
        tail_line) /\
  create_large uuid t1 t2 t3 t4 t5 =
    Ok (large_head ++ uuid ++ "^FS" ++ newline ++
        field "491,171" "A0N,21,21" (PyStr.take 8 uuid) ++
        field "35,67" "A0N,42,40" t1 ++
        field "35,119" "A0N,42,40" t2 ++
        field "35,171" "A0N,42,40" t3 ++
        field "35,226" "A0N,42,40" t4 ++
        field "35,278" "A0N,42,40" t5 ++
        tail_line) /\
  (exists pre, medium_head =
     pre ++ "^BY110,110^FT506,111^BXN,4,200,22,22,1,~" ++ newline ++ "^FH\^FD") /\
  (exists pre, large_head =
     pre ++ "^BY110,110^FT465,143^BXN,5,200,22,22,1,~" ++ newline ++ "^FH\^FD") /\
  PyStr.count_occ "{0}" zpl_medium = 1 /\
  PyStr.count_occ "{5}" zpl_medium = 1 /\
  PyStr.count_occ "^A0R" zpl_medium = 1 /\
  PyStr.count_occ "{0}" zpl_large = 1 /\
  PyStr.count_occ "{6}" zpl_large = 1 /\
  PyStr.count_occ "^A0R" zpl_large = 0.
Proof.
  split; [apply create_label_eq |].
  split; [apply create_large_eq |].
  split.
  { exists (substring 0 (String.length medium_head - 48) medium_head).
    vm_compute. reflexivity. }
  split.
  { exists (substring 0 (String.length large_head - 48) large_head).
    vm_compute. reflexivity. }
  repeat split; vm_compute; reflexivity.
Qed.

(** C8, as stated, fails for the Large label: the document has no
    rotated field; the first 8 characters of the identifier sit in an
    unrotated field. *)
Lemma large_label_prefix_not_rotated :
  exists z,
    create_large Session.sample_uuid "ID123" "Cruise A" "2024-06-01" "Box 1" ""
      = Ok z /\
    PyStr.count_occ "^A0R" z = 0 /\
    PyStr.count_occ "6fa459ea^FS" z = 1 /\
    PyStr.count_occ "^FT491,171^A0N,21,21^FH\^FD6fa459ea^FS" z = 1.
Proof.
  exists (doc_large Session.sample_uuid
                    "ID123" "Cruise A" "2024-06-01" "Box 1" "").
  split; [apply create_large_eq |].
  repeat split; vm_compute; reflexivity.
Qed.

(** * Further properties *)

(** ** Batches that stop early *)

Section EarlyStops.

Variable env : Env.

Lemma print_label_connected_run (w : World) (ip : string) :
  ip_text (ids (widget (app w))) = ip ->
  ip <> "" ->
  reachable env ip ->
  print_label env w =
  (let w1 := connected ip (with_trace w [EvPrint "Printing label"]) in
   match PyStr.int_of_str (number_text (ids (widget (app w)))) with
   | Raise e => (Raise e, w1)
   | Ok n =>
       match for_range (Z.to_nat n)
               (print_copy env (text (text1 (ids (widget (app w)))))
                           (text (text2 (ids (widget (app w)))))
                           (text (text3 (ids (widget (app w)))))
                           (text (text5 (ids (widget (app w))))))
               (mkLocals (text (text4 (ids (widget (app w))))) None) w1 with
       | (Ok _, w2) => (Ok tt, closed_world w2)
       | (Raise e, w2) => (Raise e, w2)
       end
   end).
Proof.
  intros Hip Hne Hreach.
  unfold print_label. run_monad. rewrite Hip, (eqb_empty_false ip Hne). cbn.
  rewrite start_printer_run. cbn. rewrite Hreach. cbn.
  fold (with_trace w [EvPrint "Printing label"]).
  destruct (PyStr.int_of_str _) as [n|e]; cbn; [|reflexivity].
  destruct (for_range _ _ _ _) as [[l|e] w2]; [|reflexivity].
  now rewrite on_stop_run.
Qed.


Lemma print_copy_unknown_run (t1 t2 t3 t5 t4 : string) (w : World) :
  inc_num (text4 (ids (widget (app w)))) = false ->
  setup_text (ids (widget (app w))) <> "Large" ->
  setup_text (ids (widget (app w))) <> "Medium" ->
  print_copy env t1 t2 t3 t5 (mkLocals t4 None) w =
  (Raise (UnboundLocalError "zpl"), w).
Proof.
  intros Hflag HL HM. unfold print_copy. run_monad. rewrite Hflag. cbn.
  apply String.eqb_neq in HL, HM. rewrite HL, HM. reflexivity.
Qed.

End EarlyStops.

(** X1: with the address field empty, [print_label] shows the "Need IP"
    alert and returns: no socket is created, no connection is tried, and
    the application object is as before. *)
Theorem empty_address_only_alerts (env : Env) (w : World) :
  ip_text (ids (widget (app w))) = "" ->
  exists w' : World,
    print_label env w = (Ok tt, w') /\
    app w' = app w /\
    sockets w' = sockets w /\
    trace w' =
      (trace w ++ [EvPrint "Printing label";
                   EvAlert "Need IP" "Please input an IP"])%list.
Proof.
  intros Hip.
  exists (with_trace w [EvPrint "Printing label";
                        EvAlert "Need IP" "Please input an IP"]).
  split; [exact (print_label_no_ip_run env w Hip) |].
  repeat split.
Qed.

Lemma empty_address_only_alerts_witness :
  ip_text (ids (widget (app (Session2.world_of
                               (Session2.with_ip "" (Session.form false)))))) = "" /\
  exists w' : World,
    print_label Session.online
      (Session2.world_of (Session2.with_ip "" (Session.form false))) = (Ok tt, w') /\
    app w' = app (Session2.world_of (Session2.with_ip "" (Session.form false))) /\
    sockets w' = [] /\
    trace w' = [EvPrint "Printing label"; EvAlert "Need IP" "Please input an IP"].
Proof.
  split.
  - reflexivity.
  - exact (empty_address_only_alerts Session.online
             (Session2.world_of (Session2.with_ip "" (Session.form false)))
             eq_refl).
Defined.

(** X2: when the text of the copy-count field is not an integer literal,
    [print_label] raises the [ValueError] of [int] only after the
    connection has been made: nothing is rendered or sent, and the socket
    is left connected, [on_stop] not being reached. *)
Theorem bad_copy_count_raises_after_connecting
        (env : Env) (w : World) (ip : string) (e : exn) :
  ip_text (ids (widget (app w))) = ip ->
  ip <> "" ->
  reachable env ip ->
  PyStr.int_of_str (number_text (ids (widget (app w)))) = Raise e ->
  exists w' : World,
    print_label env w = (Raise e, w') /\
    trace w' =
      (trace w ++
       [EvPrint "Printing label"; EvSocket (List.length (sockets w));
        EvConnect (List.length (sockets w)) ip 9100%Z])%list /\
    sock_of w' = Some (Connected ip 9100%Z) /\
    widget (app w') = widget (app w).
Proof.
  intros Hip Hne Hreach Hnum.
  exists (connected ip (with_trace w [EvPrint "Printing label"])).
  split.
  - rewrite (print_label_connected_run env w ip Hip Hne Hreach).
    cbn zeta. now rewrite Hnum.
  - split; [cbn; now rewrite <- app_assoc |].
    split; [unfold sock_of; cbn; apply nth_error_last | reflexivity].
Qed.

Lemma bad_copy_count_raises_after_connecting_witness :
  (ip_text (ids (widget (app (Session2.world_of
      (Session2.with_number "2.5" (Session.form false)))))) = Session.printer /\
   Session.printer <> "" /\
   reachable Session.online Session.printer /\
   PyStr.int_of_str "2.5" =
     Raise (ValueError "invalid literal for int() with base 10")) /\
  exists w' : World,
    print_label Session.online
      (Session2.world_of (Session2.with_number "2.5" (Session.form false))) =
      (Raise (ValueError "invalid literal for int() with base 10"), w') /\
    trace w' =
      [EvPrint "Printing label"; EvSocket 0; EvConnect 0 Session.printer 9100%Z] /\
    sock_of w' = Some (Connected Session.printer 9100%Z) /\
    widget (app w') = Session2.with_number "2.5" (Session.form false).
Proof.
  split.
  - repeat split; try exact printer_given; try exact online_reachable.
  - exact (bad_copy_count_raises_after_connecting Session.online
             (Session2.world_of (Session2.with_number "2.5" (Session.form false)))
             Session.printer
             (ValueError "invalid literal for int() with base 10")
             eq_refl printer_given online_reachable eq_refl).
Defined.

(** X3: a copy count of zero or less makes the batch connect and close
    at once, without rendering or sending anything; this holds whether or
    not the increment flag is set and whatever the label size reads. *)
Theorem no_copies_connects_and_closes
        (env : Env) (w : World) (ip : string) (n : Z) :
  ip_text (ids (widget (app w))) = ip ->
  ip <> "" ->
  reachable env ip ->
  PyStr.int_of_str (number_text (ids (widget (app w)))) = Ok n ->
  (n <= 0)%Z ->
  exists w' : World,
    print_label env w = (Ok tt, w') /\
    trace w' =
      (trace w ++
       [EvPrint "Printing label"; EvSocket (List.length (sockets w));
        EvConnect (List.length (sockets w)) ip 9100%Z;
        EvPrint "Exiting"; EvClose (List.length (sockets w))])%list /\
    sock_of w' = Some Closed /\
    widget (app w') = widget (app w).
Proof.
  intros Hip Hne Hreach Hnum Hn.
  exists (closed_world (connected ip (with_trace w [EvPrint "Printing label"]))).
  split.
  - rewrite (print_label_connected_run env w ip Hip Hne Hreach).
    cbn zeta. rewrite Hnum.
    replace (Z.to_nat n) with 0%nat by lia. reflexivity.
  - unfold closed_world, sock_of. cbn.
    split; [now rewrite <- !app_assoc |].
    split; [now rewrite list_set_last, nth_error_last | reflexivity].
Qed.

Lemma no_copies_connects_and_closes_witness :
  (ip_text (ids (widget (app (Session2.world_of
      (Session2.with_number "0" (Session.form true)))))) = Session.printer /\
   Session.printer <> "" /\
   reachable Session.online Session.printer /\
   PyStr.int_of_str "0" = Ok 0%Z /\
   (0 <= 0)%Z) /\
  exists w' : World,
    print_label Session.online
      (Session2.world_of (Session2.with_number "0" (Session.form true))) =
      (Ok tt, w') /\
    trace w' =
      [EvPrint "Printing label"; EvSocket 0; EvConnect 0 Session.printer 9100%Z;
       EvPrint "Exiting"; EvClose 0] /\
    sock_of w' = Some Closed /\
    widget (app w') = Session2.with_number "0" (Session.form true).
Proof.
  split.
  - repeat split; try exact printer_given; try exact online_reachable.
    discriminate.
  - exact (no_copies_connects_and_closes Session.online
             (Session2.world_of (Session2.with_number "0" (Session.form true)))
             Session.printer 0
             eq_refl printer_given online_reachable eq_refl (Z.le_refl 0)).
Defined.

(** X4: when the label-size selector reads neither "Large" nor "Medium"
    (and the increment flag is unset), the first copy raises
    [UnboundLocalError] for [zpl], which no branch has assigned: no
    identifier is drawn, nothing is sent, and the socket is left
    connected. *)
Theorem unknown_size_raises_UnboundLocalError
        (env : Env) (w : World) (ip : string) (n : Z) :
  ip_text (ids (widget (app w))) = ip ->
  ip <> "" ->
  reachable env ip ->
  PyStr.int_of_str (number_text (ids (widget (app w)))) = Ok n ->
  (0 < n)%Z ->
  inc_num (text4 (ids (widget (app w)))) = false ->
  setup_text (ids (widget (app w))) <> "Large" ->
  setup_text (ids (widget (app w))) <> "Medium" ->
  exists w' : World,
    print_label env w = (Raise (UnboundLocalError "zpl"), w') /\
    trace w' =
      (trace w ++
       [EvPrint "Printing label"; EvSocket (List.length (sockets w));
        EvConnect (List.length (sockets w)) ip 9100%Z])%list /\
    sock_of w' = Some (Connected ip 9100%Z).
Proof.
  intros Hip Hne Hreach Hnum Hpos Hflag HL HM.
  exists (connected ip (with_trace w [EvPrint "Printing label"])).
  split.
  - rewrite (print_label_connected_run env w ip Hip Hne Hreach).
    cbn zeta. rewrite Hnum.
    destruct (Z.to_nat n) as [|m] eqn:Hn; [lia |].
    unfold for_range. unfold bind at 1.
    rewrite print_copy_unknown_run by assumption. reflexivity.
  - split; [cbn; now rewrite <- app_assoc |].
    unfold sock_of; cbn; apply nth_error_last.
Qed.

Lemma small_is_not_large : "Small" <> "Large".
Proof. discriminate. Defined.

Lemma small_is_not_medium : "Small" <> "Medium".
Proof. discriminate. Defined.

Lemma unknown_size_raises_UnboundLocalError_witness :
  (ip_text (ids (widget (app (Session2.world_of
      (Session2.with_setup "Small" (Session.form false)))))) = Session.printer /\
   Session.printer <> "" /\
   reachable Session.online Session.printer /\
   PyStr.int_of_str "3" = Ok 3%Z /\
   (0 < 3)%Z /\
   "Small" <> "Large" /\ "Small" <> "Medium") /\
  exists w' : World,
    print_label Session.online
      (Session2.world_of (Session2.with_setup "Small" (Session.form false))) =
      (Raise (UnboundLocalError "zpl"), w') /\
    trace w' =
      [EvPrint "Printing label"; EvSocket 0; EvConnect 0 Session.printer 9100%Z] /\
    sock_of w' = Some (Connected Session.printer 9100%Z).
Proof.
  split.
  - repeat split; try exact printer_given; try exact online_reachable;
      discriminate.
  - exact (unknown_size_raises_UnboundLocalError Session.online
             (Session2.world_of (Session2.with_setup "Small" (Session.form false)))
             Session.printer 3
             eq_refl printer_given online_reachable eq_refl eq_refl eq_refl
             small_is_not_large small_is_not_medium).
Defined.

(** ** Failures the batch does not handle *)

Lemma not_oserror_not_refused (e : exn) :
  isinstance e ClsOSError = false ->
  isinstance e ClsConnectionRefusedError = false.
Proof. destruct e; cbn; intros H; try reflexivity; discriminate H. Qed.

(** X5: an exception of [connect] that is not an [OSError] (the
    [ValueError] of a host name that cannot be encoded, say) is not
    handled: it leaves [print_label] as it is, no alert is shown, and
    nothing is rendered or sent. *)
Theorem other_connect_errors_propagate
        (env : Env) (w : World) (ip : string) (e : exn) :
  ip_text (ids (widget (app w))) = ip ->
  ip <> "" ->
  unreachable env ip e ->
  isinstance e ClsOSError = false ->
  exists w' : World,
    print_label env w = (Raise e, w') /\
    trace w' =
      (trace w ++
       [EvPrint "Printing label"; EvSocket (List.length (sockets w));
        EvConnect (List.length (sockets w)) ip 9100%Z])%list /\
    sock_of w' = Some Fresh.
Proof.
  intros Hip Hne Hdown Hcls.
  exists (connecting ip (with_trace w [EvPrint "Printing label"])).
  split.
  - unfold print_label. run_monad. rewrite Hip, (eqb_empty_false ip Hne). cbn.
    rewrite start_printer_run. cbn. rewrite Hdown. cbn.
    rewrite (not_oserror_not_refused e Hcls), Hcls. reflexivity.
  - split; [cbn; now rewrite <- app_assoc |].
    unfold sock_of; cbn; apply nth_error_last.
Qed.

Lemma bad_host_fails :
  unreachable Session2.bad_host Session.printer
              (ValueError "encoding with 'idna' codec failed").
Proof. intro h. reflexivity. Defined.

Lemma other_connect_errors_propagate_witness :
  (ip_text (ids (widget (app Session.plain))) = Session.printer /\
   Session.printer <> "" /\
   unreachable Session2.bad_host Session.printer
               (ValueError "encoding with 'idna' codec failed") /\
   isinstance (ValueError "encoding with 'idna' codec failed") ClsOSError = false) /\
  exists w' : World,
    print_label Session2.bad_host Session.plain =
      (Raise (ValueError "encoding with 'idna' codec failed"), w') /\
    trace w' =
      [EvPrint "Printing label"; EvSocket 0; EvConnect 0 Session.printer 9100%Z] /\
    sock_of w' = Some Fresh.
Proof.
  split.
  - repeat split; try exact printer_given; try exact bad_host_fails.
  - exact (other_connect_errors_propagate Session2.bad_host Session.plain
             Session.printer (ValueError "encoding with 'idna' codec failed")
             eq_refl printer_given bad_host_fails eq_refl).
Defined.

Section SendFails.

Variable env : Env.
Variables t1 t2 t3 t5 : string.

Lemma print_copy_step_run (setup : string) (k : nat) (l : loop_locals)
      (w : World) :
  ready setup k w ->
  print_copy env t1 t2 t3 t5 l w =
  (let u := uuid1 env (trace w) in
   let z := doc setup u t1 t2 t3 (l_text4 l) t5 in
   match net_send env (trace w ++ [EvUuid u; EvRender z]) (PyStr.utf8 z) with
   | None =>
       (Ok (mkLocals (l_text4 l) (Some z)),
        with_trace w (copy_block env t1 t2 t3 t5 setup (l_text4 l) k (trace w)))
   | Some e =>
       (Raise e,
        with_trace w [EvUuid u; EvRender z; EvSend k (PyStr.utf8 z)])
   end).
Proof.
  intros [Hflag Hsetup Hsize Hsock [host [port Hconn]]].
  unfold print_copy, new_hex_uuid, send_to_printer, copy_block, with_trace.
  run_monad. rewrite Hflag, Hsetup. cbn.
  destruct Hsize as [-> | ->]; unfold doc; cbn.
  - rewrite create_large_eq. cbn. rewrite Hsock. cbn.
    rewrite Hconn. rewrite <- !app_assoc. cbn.
    destruct (net_send env _ _); cbn; now rewrite <- ?app_assoc.
  - rewrite create_label_eq. cbn. rewrite Hsock. cbn.
    rewrite Hconn. rewrite <- !app_assoc. cbn.
    destruct (net_send env _ _); cbn; now rewrite <- ?app_assoc.
Qed.

Lemma count_sends_copy_block (setup t4 : string) (k : nat) (h : list event) :
  count_events is_send (copy_block env t1 t2 t3 t5 setup t4 k h) = 1.
Proof. reflexivity. Qed.

Lemma for_range_send_fails (setup : string) (k : nat) (e : exn) (j : nat) :
  forall (n : nat) (l : loop_locals) (w : World),
    ready setup k w ->
    (forall h p,
        (count_events is_send h < count_events is_send (trace w) + j)%nat ->
        net_send env h p = None) ->
    (forall h p,
        count_events is_send h = (count_events is_send (trace w) + j)%nat ->
        net_send env h p = Some e) ->
    (j < n)%nat ->
    for_range n (print_copy env t1 t2 t3 t5) l w =
    (Raise e, with_trace w (failed_copy env t1 t2 t3 t5 setup (l_text4 l) k (trace w) j)).
Proof.
  induction j as [|j IH]; intros n l w Hr Hgood Hbad Hlt.
  - destruct n as [|n]; [lia |].
    unfold for_range. unfold bind at 1.
    rewrite (print_copy_step_run setup k l w Hr). cbn zeta.
    rewrite Hbad.
    + unfold failed_copy. cbn [copy_events List.app]. now rewrite app_nil_r.
    + rewrite count_events_app. unfold count_events at 2. cbn. lia.
  - destruct n as [|n]; [lia |].
    unfold for_range; fold (@for_range loop_locals). unfold bind at 1.
    rewrite (print_copy_step_run setup k l w Hr). cbn zeta.
    rewrite Hgood.
    + rewrite (IH n _ _ (ready_with_trace setup k w _ Hr)).
      * cbn [l_text4]. rewrite with_trace_app. unfold failed_copy.
        cbn [copy_events trace with_trace].
        now rewrite <- !app_assoc.
      * intros h p Hh. apply Hgood.
        cbn [trace with_trace] in Hh.
        rewrite count_events_app, count_sends_copy_block in Hh. lia.
      * intros h p Hh. apply Hbad.
        cbn [trace with_trace] in Hh.
        rewrite count_events_app, count_sends_copy_block in Hh. lia.
      * lia.
    + rewrite count_events_app. unfold count_events at 2. cbn. lia.
Qed.

End SendFails.

Lemma copy_events_no_close (env : Env) (t1 t2 t3 t5 setup t4 : string)
      (k : nat) (h : list event) (j : nat) :
  count_events is_close (copy_events env t1 t2 t3 t5 setup t4 k h j) = 0.
Proof.
  exact (proj2 (copy_sequence_no_connect k _ j _
                  (copy_events_sequence env t1 t2 t3 t5 setup t4 k j h))).
Qed.

(** X6: when the writes of a batch succeed [j] times and then fail with
    [e], the batch stops at copy [j+1] with [e]: the [j] copies already
    written stay written, the document of the failing copy has been
    rendered and its write tried, and the socket is left connected, since
    [on_stop] is not reached. *)
Theorem send_failure_aborts_batch
        (env : Env) (w : World) (ip setup : string) (n : Z) (e : exn) (j : nat) :
  ip_text (ids (widget (app w))) = ip ->
  ip <> "" ->
  reachable env ip ->
  PyStr.int_of_str (number_text (ids (widget (app w)))) = Ok n ->
  inc_num (text4 (ids (widget (app w)))) = false ->
  setup_text (ids (widget (app w))) = setup ->
  setup = "Large" \/ setup = "Medium" ->
  (forall h p,
      (count_events is_send h < count_events is_send (trace w) + j)%nat ->
      net_send env h p = None) ->
  (forall h p,
      count_events is_send h = (count_events is_send (trace w) + j)%nat ->
      net_send env h p = Some e) ->
  (j < Z.to_nat n)%nat ->
  exists (w' : World) (done : list event) (u : string),
    print_label env w = (Raise e, w') /\
    trace w' =
      (trace w ++
       [EvPrint "Printing label"; EvSocket (List.length (sockets w));
        EvConnect (List.length (sockets w)) ip 9100%Z] ++
       done ++
       [EvUuid u;
        EvRender (doc setup u (text (text1 (ids (widget (app w)))))
                      (text (text2 (ids (widget (app w)))))
                      (text (text3 (ids (widget (app w)))))
                      (text (text4 (ids (widget (app w)))))
                      (text (text5 (ids (widget (app w))))));
        EvSend (List.length (sockets w))
               (PyStr.utf8
                  (doc setup u (text (text1 (ids (widget (app w)))))
                       (text (text2 (ids (widget (app w)))))
                       (text (text3 (ids (widget (app w)))))
                       (text (text4 (ids (widget (app w)))))
                       (text (text5 (ids (widget (app w)))))))])%list /\
    copy_sequence
      (fun u => doc setup u (text (text1 (ids (widget (app w)))))
                    (text (text2 (ids (widget (app w)))))
                    (text (text3 (ids (widget (app w)))))
                    (text (text4 (ids (widget (app w)))))
                    (text (text5 (ids (widget (app w))))))
      (List.length (sockets w)) j done /\
    count_events is_close (trace w') = count_events is_close (trace w) /\
    sock_of w' = Some (Connected ip 9100%Z).
Proof.
  intros Hip Hne Hreach Hnum Hflag Hsetup Hsize Hgood Hbad Hlt.
  set (w1 := connected ip (with_trace w [EvPrint "Printing label"])).
  assert (Hcount : count_events is_send (trace w1) =
                   count_events is_send (trace w)).
  { unfold w1. cbn [trace connected with_trace].
    rewrite !count_events_app. unfold count_events at 2 3. cbn. lia. }
  pose proof (for_range_send_fails env
                (text (text1 (ids (widget (app w)))))
                (text (text2 (ids (widget (app w)))))
                (text (text3 (ids (widget (app w)))))
                (text (text5 (ids (widget (app w)))))
                setup (List.length (sockets w)) e j (Z.to_nat n)
                (mkLocals (text (text4 (ids (widget (app w))))) None) w1
                (ready_connected w ip setup Hflag Hsetup Hsize)) as Hloop.
  rewrite Hcount in Hloop. specialize (Hloop Hgood Hbad Hlt).
  exists (with_trace w1
            (failed_copy env
               (text (text1 (ids (widget (app w)))))
               (text (text2 (ids (widget (app w)))))
               (text (text3 (ids (widget (app w)))))
               (text (text5 (ids (widget (app w)))))
               setup (text (text4 (ids (widget (app w)))))
               (List.length (sockets w)) (trace w1) j)).
  exists (copy_events env
            (text (text1 (ids (widget (app w)))))
            (text (text2 (ids (widget (app w)))))
            (text (text3 (ids (widget (app w)))))
            (text (text5 (ids (widget (app w)))))
            setup (text (text4 (ids (widget (app w)))))
            (List.length (sockets w)) (trace w1) j).
  exists (uuid1 env
            (trace w1 ++
             copy_events env
               (text (text1 (ids (widget (app w)))))
               (text (text2 (ids (widget (app w)))))
               (text (text3 (ids (widget (app w)))))
               (text (text5 (ids (widget (app w)))))
               setup (text (text4 (ids (widget (app w)))))
               (List.length (sockets w)) (trace w1) j)).
  split.
  - rewrite (print_label_connected_run env w ip Hip Hne Hreach).
    cbn zeta. rewrite Hnum. fold w1. rewrite Hloop. reflexivity.
  - split.
    + unfold failed_copy, w1. cbn [trace connected with_trace l_text4].
      rewrite <- !app_assoc. reflexivity.
    + split; [apply copy_events_sequence |].
      split; [| unfold sock_of, w1; cbn; apply nth_error_last].
      unfold failed_copy, w1. cbn [trace connected with_trace l_text4].
      rewrite !count_events_app.
      rewrite copy_events_no_close. unfold count_events. cbn. lia.
Qed.

Lemma breaking_first_write_ok :
  forall h p,
    (count_events is_send h < count_events is_send (trace Session.plain) + 1)%nat ->
    net_send Session2.breaking h p = None.
Proof.
  intros h p H.
  change (count_events is_send (trace Session.plain)) with 0%nat in H.
  unfold Session2.breaking; cbn [net_send].
  destruct (Nat.ltb_spec (count_events is_send h) 1); [reflexivity | lia].
Defined.

Lemma breaking_second_write_fails :
  forall h p,
    count_events is_send h = (count_events is_send (trace Session.plain) + 1)%nat ->
    net_send Session2.breaking h p = Some (OSError "Broken pipe").
Proof.
  intros h p H.
  change (count_events is_send (trace Session.plain)) with 0%nat in H.
  unfold Session2.breaking; cbn [net_send]. rewrite H. reflexivity.
Defined.

Lemma breaking_reachable : reachable Session2.breaking Session.printer.
Proof. intro h. reflexivity. Defined.

Lemma send_failure_aborts_batch_witness :
  (ip_text (ids (widget (app Session.plain))) = Session.printer /\
   Session.printer <> "" /\
   reachable Session2.breaking Session.printer /\
   PyStr.int_of_str (number_text (ids (widget (app Session.plain)))) = Ok 3%Z /\
   inc_num (text4 (ids (widget (app Session.plain)))) = false /\
   setup_text (ids (widget (app Session.plain))) = "Medium" /\
   (1 < Z.to_nat 3)%nat) /\
  exists (w' : World) (done : list event) (u : string),
    print_label Session2.breaking Session.plain =
      (Raise (OSError "Broken pipe"), w') /\
    trace w' =
      ([EvPrint "Printing label"; EvSocket 0; EvConnect 0 Session.printer 9100%Z] ++
       done ++
       [EvUuid u;
        EvRender (doc "Medium" u "ID123" "Cruise A" "2024-06-01" "Box 1" "");
        EvSend 0 (PyStr.utf8
                    (doc "Medium" u "ID123" "Cruise A" "2024-06-01" "Box 1" ""))])%list /\
    copy_sequence
      (fun u => doc "Medium" u "ID123" "Cruise A" "2024-06-01" "Box 1" "")
      0 1 done /\
    count_events is_close (trace w') = 0 /\
    sock_of w' = Some (Connected Session.printer 9100%Z).
Proof.
  assert (Hlt : (1 < Z.to_nat 3)%nat) by (cbn; lia).
  split.
  - repeat split; try exact printer_given; try exact breaking_reachable.
    exact Hlt.
  - exact (send_failure_aborts_batch Session2.breaking Session.plain
             Session.printer "Medium" 3 (OSError "Broken pipe") 1
             eq_refl printer_given breaking_reachable eq_refl eq_refl eq_refl
             (or_intror eq_refl)
             breaking_first_write_ok breaking_second_write_fails Hlt).
Defined.

(** ** One batch after another *)

Lemma copy_events_no_connect (env : Env) (t1 t2 t3 t5 setup t4 : string)
      (k : nat) (h : list event) (j : nat) :
  count_events is_connect (copy_events env t1 t2 t3 t5 setup t4 k h j) = 0.
Proof.
  exact (proj1 (copy_sequence_no_connect k _ j _
                  (copy_events_sequence env t1 t2 t3 t5 setup t4 k j h))).
Qed.

Lemma batch_ok_again (env : Env) (w : World) (ip setup : string) (n : Z) :
  batch_ok env w ip setup n ->
  batch_ok env (batch_done env w ip setup n) ip setup n.
Proof.
  intros [Hip Hne Hreach Hsend Hnum Hflag Hsetup Hsize].
  constructor; assumption.
Qed.

(** X7: a batch that went through can be run again as it is: the second
    run creates a socket object of its own, connects and closes it, and
    leaves the closed socket of the first run alone; over the two runs
    there are two connects and two closes. *)
Theorem batch_can_be_repeated
        (env : Env) (w : World) (ip setup : string) (n : Z) :
  batch_ok env w ip setup n ->
  exists w1 w2 : World,
    print_label env w = (Ok tt, w1) /\
    print_label env w1 = (Ok tt, w2) /\
    socket (app w1) = Some (List.length (sockets w)) /\
    socket (app w2) = Some (S (List.length (sockets w))) /\
    sockets w2 = (sockets w ++ [Closed; Closed])%list /\
    count_events is_connect (trace w2) = 2 + count_events is_connect (trace w) /\
    count_events is_close (trace w2) = 2 + count_events is_close (trace w) /\
    count_events is_send (trace w2) =
      2 * Z.to_nat n + count_events is_send (trace w).
Proof.
  intros Hok.
  pose proof (batch_ok_again env w ip setup n Hok) as Hok2.
  exists (batch_done env w ip setup n),
         (batch_done env (batch_done env w ip setup n) ip setup n).
  split; [exact (print_label_ok_run env w ip setup n Hok) |].
  split; [exact (print_label_ok_run env _ ip setup n Hok2) |].
  split; [reflexivity |].
  split; [cbn; now rewrite length_app, Nat.add_1_r |].
  split; [cbn; now rewrite <- app_assoc |].
  unfold batch_done, copies, opening, closing. cbn [trace sockets app widget].
  rewrite !count_events_app, !copy_events_no_connect, !copy_events_no_close.
  rewrite !(copy_sequence_sends _ _ _ _
              (copy_events_sequence env _ _ _ _ _ _ _ _ _)).
  unfold count_events. cbn. repeat split; lia.
Qed.

Lemma batch_can_be_repeated_witness :
  batch_ok Session.online Session.plain Session.printer "Medium" 3 /\
  exists w1 w2 : World,
    print_label Session.online Session.plain = (Ok tt, w1) /\
    print_label Session.online w1 = (Ok tt, w2) /\
    socket (app w1) = Some 0 /\
    socket (app w2) = Some 1 /\
    sockets w2 = [Closed; Closed] /\
    count_events is_connect (trace w2) = 2 /\
    count_events is_close (trace w2) = 2 /\
    count_events is_send (trace w2) = 6.
Proof.
  split.
  - exact plain_batch_ok.
  - exact (batch_can_be_repeated Session.online Session.plain
             Session.printer "Medium" 3 plain_batch_ok).
Defined.

(** ** Sending outside a batch *)

(** X8: [send_to_printer] works only between [start_printer] and
    [on_stop].  On the application as [build] leaves it, it raises
    [AttributeError] ([socket] is [None]) and does nothing; once a
    connection is made it writes the document, encoded as UTF-8, to the
    socket; after [on_stop] it raises an [OSError], the socket being
    closed. *)
Theorem send_needs_open_connection
        (env : Env) (ip zpl : string) (w : World) :
  reachable env ip ->
  (forall h payload, net_send env h payload = None) ->
  (forall f ips socks tr,
      send_to_printer env zpl (mkWorld (build f ips) ips socks tr) =
      (Raise (AttributeError "'NoneType' object has no attribute 'send'"),
       mkWorld (build f ips) ips socks tr)) /\
  send_to_printer env zpl (snd (start_printer env ip w)) =
    (Ok tt,
     with_trace (snd (start_printer env ip w))
                [EvSend (List.length (sockets w)) (PyStr.utf8 zpl)]) /\
  (exists e, fst (send_to_printer env zpl
                    (snd (on_stop (snd (start_printer env ip w))))) = Raise e /\
             isinstance e ClsOSError = true).
Proof.
  intros Hreach Hsend.
  split; [reflexivity |].
  rewrite start_printer_run, Hreach. cbn [snd].
  split.
  - unfold send_to_printer, connected, with_trace. run_monad.
    rewrite nth_error_last, Hsend. reflexivity.
  - exists (OSError "socket is not connected").
    rewrite ?start_printer_run, ?Hreach. cbn [snd].
    rewrite on_stop_run. cbn [snd].
    unfold send_to_printer, closed_world, connected. run_monad.
    rewrite list_set_last, nth_error_last. split; reflexivity.
Qed.

Lemma online_writes : forall h payload, net_send Session.online h payload = None.
Proof. intros h payload. reflexivity. Defined.

Lemma send_needs_open_connection_witness :
  (reachable Session.online Session.printer /\
   (forall h payload, net_send Session.online h payload = None)) /\
  send_to_printer Session.online "^XA^XZ"
    (snd (start_printer Session.online Session.printer Session.plain)) =
    (Ok tt,
     with_trace (snd (start_printer Session.online Session.printer Session.plain))
                [EvSend 0 (PyStr.utf8 "^XA^XZ")]).
Proof.
  split.
  - split; [exact online_reachable | exact online_writes].
  - exact (proj1 (proj2
      (send_needs_open_connection Session.online Session.printer "^XA^XZ"
         Session.plain online_reachable online_writes))).
Defined.

(** ** Decimal texts *)

Lemma digit_cases (d : Z) :
  (0 <= d < 10)%Z ->
  d = 0%Z \/ d = 1%Z \/ d = 2%Z \/ d = 3%Z \/ d = 4%Z \/
  d = 5%Z \/ d = 6%Z \/ d = 7%Z \/ d = 8%Z \/ d = 9%Z.
Proof. lia. Qed.

Lemma digit_char_is_digit (d : Z) :
  (0 <= d < 10)%Z -> PyStr.is_digit (PyStr.digit_char d) = true.
Proof.
  intros H. destruct (digit_cases d H) as [-> | [-> | [-> | [-> | [-> |
    [-> | [-> | [-> | [-> | ->]]]]]]]]]; reflexivity.
Qed.

Lemma digit_char_val (d : Z) :
  (0 <= d < 10)%Z -> PyStr.digit_val (PyStr.digit_char d) = d.
Proof.
  intros H. destruct (digit_cases d H) as [-> | [-> | [-> | [-> | [-> |
    [-> | [-> | [-> | [-> | ->]]]]]]]]]; reflexivity.
Qed.

Lemma digits_only_app (a b : string) :
  digits_only (a ++ b) = digits_only a && digits_only b.
Proof.
  induction a as [|c a IH]; cbn; [reflexivity |].
  now rewrite IH, andb_assoc.
Qed.

Lemma digits_value_snoc (x : string) (c : ascii) :
  forall a, PyStr.digits_value a (x ++ String c "") =
            (10 * PyStr.digits_value a x + PyStr.digit_val c)%Z.
Proof.
  induction x as [|y x IH]; intros a; cbn; [reflexivity | apply IH].
Qed.

Lemma digits_of_app (fuel : nat) :
  forall n acc, PyStr.digits_of fuel n acc = PyStr.digits_of fuel n "" ++ acc.
Proof.
  induction fuel as [|fuel IH]; intros n acc; cbn [PyStr.digits_of].
  - reflexivity.
  - destruct (n <? 10)%Z; [reflexivity |].
    rewrite IH, (IH _ (String _ "")), append_assoc. reflexivity.
Qed.

Lemma digits_of_step (fuel : nat) (n : Z) (acc : string) :
  PyStr.digits_of (S fuel) n acc =
  if (n <? 10)%Z then String (PyStr.digit_char (n mod 10)) acc
  else PyStr.digits_of fuel (n / 10) (String (PyStr.digit_char (n mod 10)) acc).
Proof. reflexivity. Qed.

Lemma digits_of_spec (fuel : nat) :
  forall n,
    (0 <= n < 10 ^ Z.of_nat (S fuel))%Z ->
    digits_only (PyStr.digits_of (S fuel) n "") = true /\
    PyStr.digits_of (S fuel) n "" <> "" /\
    PyStr.digits_value 0 (PyStr.digits_of (S fuel) n "") = n.
Proof.
  induction fuel as [|fuel IH]; intros n Hn.
  - change (10 ^ Z.of_nat 1)%Z with 10%Z in Hn.
    assert (Hd : (0 <= n mod 10 < 10)%Z) by (apply Z.mod_pos_bound; lia).
    assert (Hm : (n mod 10 = n)%Z) by (apply Z.mod_small; lia).
    cbn [PyStr.digits_of].
    destruct (n <? 10)%Z; cbn;
      rewrite digit_char_is_digit, digit_char_val by exact Hd;
      (split; [reflexivity | split; [discriminate | lia]]).
  - assert (Hd : (0 <= n mod 10 < 10)%Z) by (apply Z.mod_pos_bound; lia).
    rewrite (digits_of_step (S fuel)).
    destruct (Z.ltb_spec n 10) as [Hlt | Hge].
    + cbn. rewrite digit_char_is_digit, digit_char_val by exact Hd.
      split; [reflexivity | split; [discriminate |]].
      rewrite Z.mod_small; lia.
    + rewrite digits_of_app.
      assert (Hq : (0 <= n / 10 < 10 ^ Z.of_nat (S fuel))%Z).
      { rewrite (Nat2Z.inj_succ (S fuel)), Z.pow_succ_r in Hn by lia.
        split; [apply Z.div_pos; lia | apply Z.div_lt_upper_bound; lia]. }
      destruct (IH (n / 10)%Z Hq) as [H1 [H2 H3]].
      split; [| split].
      * rewrite digits_only_app, H1. cbn.
        now rewrite digit_char_is_digit by exact Hd.
      * destruct (PyStr.digits_of (S fuel) (n / 10) ""); [congruence | discriminate].
      * rewrite digits_value_snoc, H3, digit_char_val by exact Hd.
        pose proof (Z.div_mod n 10). lia.
Qed.

Lemma enough_fuel (n : Z) :
  (0 <= n)%Z -> (0 <= n < 10 ^ Z.of_nat (S (Z.to_nat (Z.log2 n))))%Z.
Proof.
  intros Hn. split; [exact Hn |].
  rewrite Nat2Z.inj_succ, Z2Nat.id by apply Z.log2_nonneg.
  destruct (Z.eq_dec n 0) as [-> | Hnz].
  - cbn. lia.
  - assert (Hlog : (n < 2 ^ Z.succ (Z.log2 n))%Z) by (apply Z.log2_spec; lia).
    assert (Hpow : (2 ^ Z.succ (Z.log2 n) <= 10 ^ Z.succ (Z.log2 n))%Z).
    { apply Z.pow_le_mono_l. lia. }
    lia.
Qed.

Lemma decimal_nonneg (n : Z) :
  (0 <= n)%Z ->
  digits_only (PyStr.decimal n) = true /\
  PyStr.decimal n <> "" /\
  PyStr.digits_value 0 (PyStr.decimal n) = n.
Proof.
  intros Hn. unfold PyStr.decimal.
  destruct (Z.ltb_spec n 0) as [Hneg | _]; [lia |].
  apply digits_of_spec, enough_fuel, Hn.
Qed.

Lemma decimal_inj (a b : Z) :
  (0 <= a)%Z -> (0 <= b)%Z -> PyStr.decimal a = PyStr.decimal b -> a = b.
Proof.
  intros Ha Hb H. apply (f_equal (PyStr.digits_value 0)) in H.
  destruct (decimal_nonneg a Ha) as (_ & _ & Ea).
  destruct (decimal_nonneg b Hb) as (_ & _ & Eb).
  congruence.
Qed.

Lemma string_length_app (a b : string) :
  String.length (a ++ b) = (String.length a + String.length b)%nat.
Proof. induction a as [|c a IH]; cbn; [reflexivity | now rewrite IH]. Qed.

(** A number below [10^k] has at most [k] digits. *)
Lemma digits_of_length (fuel : nat) :
  forall n k,
    (1 <= k)%Z -> (0 <= n < 10 ^ k)%Z ->
    (Z.of_nat (String.length (PyStr.digits_of fuel n "")) <= k)%Z.
Proof.
  induction fuel as [|fuel IH]; intros n k Hk Hn; [cbn; lia |].
  rewrite digits_of_step.
  destruct (Z.ltb_spec n 10) as [Hlt | Hge]; [cbn; lia |].
  rewrite digits_of_app, string_length_app, Nat2Z.inj_add.
  change (Z.of_nat (String.length (String (PyStr.digit_char (n mod 10)) "")))
    with 1%Z.
  assert (Hk2 : (2 <= k)%Z).
  { destruct (Z.le_gt_cases 2 k) as [H | H]; [exact H |].
    assert (k = 1)%Z by lia. subst k. change (10 ^ 1)%Z with 10%Z in Hn. lia. }
  assert (Hpow : (10 ^ k = 10 * 10 ^ (k - 1))%Z).
  { replace k with (Z.succ (k - 1)) at 1 by lia. apply Z.pow_succ_r. lia. }
  assert (Hq : (0 <= n / 10 < 10 ^ (k - 1))%Z).
  { split; [apply Z.div_pos; lia | apply Z.div_lt_upper_bound; lia]. }
  pose proof (IH (n / 10)%Z (k - 1)%Z ltac:(lia) Hq). lia.
Qed.

Lemma decimal_length (n k : Z) :
  (1 <= k)%Z -> (0 <= n < 10 ^ k)%Z ->
  (Z.of_nat (String.length (PyStr.decimal n)) <= k)%Z.
Proof.
  intros Hk Hn. unfold PyStr.decimal.
  destruct (Z.ltb_spec n 0) as [Hneg | _]; [lia |].
  now apply digits_of_length.
Qed.

(** A text of [k] digits reads as a number below [10^k]. *)
Lemma digits_value_bound (s : string) :
  forall a,
    (0 <= a)%Z -> digits_only s = true ->
    (PyStr.digits_value a s < (a + 1) * 10 ^ Z.of_nat (String.length s))%Z.
Proof.
  induction s as [|c s IH]; intros a Ha Hd.
  - cbn. lia.
  - cbn in Hd. apply andb_true_iff in Hd. destruct Hd as [Hc Hs].
    cbn [PyStr.digits_value String.length].
    rewrite Nat2Z.inj_succ, Z.pow_succ_r by lia.
    assert (Hv : (0 <= PyStr.digit_val c <= 9)%Z).
    { revert Hc. unfold PyStr.is_digit, PyStr.digit_val. intros Hc.
      apply andb_true_iff in Hc. destruct Hc as [H1 H2].
      apply Nat.leb_le in H1, H2. lia. }
    pose proof (IH (10 * a + PyStr.digit_val c)%Z ltac:(lia) Hs) as Hb.
    assert (Hp : (0 < 10 ^ Z.of_nat (String.length s))%Z)
      by (apply Z.pow_pos_nonneg; lia).
    nia.
Qed.

Lemma str_of_int_ok (n : Z) :
  (Z.abs n < 10 ^ PyStr.max_str_digits)%Z ->
  PyStr.str_of_int n = Ok (PyStr.decimal n).
Proof.
  intros Hn. unfold PyStr.str_of_int.
  pose proof (decimal_length (Z.abs n) PyStr.max_str_digits
                ltac:(unfold PyStr.max_str_digits; lia)
                (conj (Z.abs_nonneg n) Hn)) as Hlen.
  destruct (Z.ltb_spec PyStr.max_str_digits
              (Z.of_nat (String.length (PyStr.decimal (Z.abs n)))));
    [lia | reflexivity].
Qed.


Lemma digit_is_plain (c : ascii) :
  PyStr.is_digit c = true ->
  PyStr.is_space c = false /\ PyStr.is_unicode_digit c = true /\
  Ascii.eqb c "-" = false /\ Ascii.eqb c "+" = false /\
  Ascii.eqb c "_" = false /\ Ascii.eqb c "." = false /\
  (0 <= PyStr.digit_val c)%Z.
Proof.
  destruct c as [[] [] [] [] [] [] [] []]; intros H;
    try discriminate H; repeat split; try reflexivity; vm_compute; discriminate.
Qed.

(** On digits alone the scan of [int] reads to the end and counts every
    character. *)
Lemma int_digits_all (s : string) :
  forall sep count a,
    digits_only s = true -> s <> "" ->
    PyStr.int_digits sep count a s =
    Some ((count + String.length s)%nat, PyStr.digits_value a s, "").
Proof.
  induction s as [|c s IH]; intros sep count a Hd Hne; [congruence |].
  cbn in Hd. apply andb_true_iff in Hd. destruct Hd as [Hc Hs].
  cbn [PyStr.int_digits PyStr.digits_value String.length]. rewrite Hc.
  destruct s as [|c' s'].
  - cbn. now rewrite Nat.add_1_r.
  - rewrite IH; [| exact Hs | discriminate].
    now rewrite Nat.add_succ_r.
Qed.

Lemma int_of_str_scan (s : string) :
  digits_only s = true -> s <> "" ->
  PyStr.int_of_str s =
  if (PyStr.max_str_digits <? Z.of_nat (String.length s))%Z
  then Raise PyStr.too_many_digits
  else Ok (PyStr.digits_value 0 s).
Proof.
  intros Hd Hne. destruct s as [|c s]; [congruence |].
  pose proof (int_digits_all (String c s) true 0%nat 0%Z Hd Hne) as Hbody.
  cbn in Hd. apply andb_true_iff in Hd. destruct Hd as [Hc _].
  destruct (digit_is_plain c Hc) as [Hsp _].
  unfold PyStr.int_of_str. cbn [PyStr.lstrip]. rewrite Hsp.
  destruct c as [[] [] [] [] [] [] [] []]; try discriminate Hc;
    rewrite Hbody; cbn [Nat.add];
    destruct (PyStr.max_str_digits <? _)%Z; reflexivity.
Qed.

Lemma int_of_str_digits (s : string) :
  digits_only s = true -> s <> "" ->
  (Z.of_nat (String.length s) <= PyStr.max_str_digits)%Z ->
  PyStr.int_of_str s = Ok (PyStr.digits_value 0 s).
Proof.
  intros Hd Hne Hlen. rewrite (int_of_str_scan s Hd Hne).
  destruct (Z.ltb_spec PyStr.max_str_digits (Z.of_nat (String.length s)));
    [lia | reflexivity].
Qed.

(** [int] skips blanks, tabs, line ends, next line and no-break space
    around the number, but not the separators 28 to 31; it takes single
    underscores between digits; and it refuses more than 4300 digits,
    before it looks at what follows them. *)
Lemma int_of_str_examples :
  PyStr.int_of_str (String "028" "3") =
    Raise (ValueError "invalid literal for int() with base 10") /\
  PyStr.int_of_str (String "031" "0") =
    Raise (ValueError "invalid literal for int() with base 10") /\
  PyStr.int_of_str (String "3" (String "030" "")) =
    Raise (ValueError "invalid literal for int() with base 10") /\
  PyStr.int_of_str (String "160" (String "009" "3") ++ String "133" " ") = Ok 3%Z /\
  PyStr.int_of_str " -1_000 " = Ok (-1000)%Z /\
  PyStr.int_of_str "1__0" =
    Raise (ValueError "invalid literal for int() with base 10") /\
  PyStr.int_of_str (string_of_list_ascii (repeat "9"%char 4300)) =
    Ok (10 ^ 4300 - 1)%Z /\
  PyStr.int_of_str (string_of_list_ascii (repeat "0"%char 4301)) =
    Raise PyStr.too_many_digits /\
  PyStr.int_of_str (string_of_list_ascii (repeat "1"%char 4301) ++ "x") =
    Raise PyStr.too_many_digits.
Proof.
  do 8 (split; [vm_compute; reflexivity |]). vm_compute; reflexivity.
Qed.

Lemma digits_value_nonneg (s : string) :
  forall a, (0 <= a)%Z -> digits_only s = true ->
            (0 <= PyStr.digits_value a s)%Z.
Proof.
  induction s as [|c s IH]; intros a Ha Hd; cbn [PyStr.digits_value];
    [exact Ha |].
  cbn in Hd. apply andb_true_iff in Hd. destruct Hd as [Hc Hs].
  apply IH; [| exact Hs].
  destruct (digit_is_plain c Hc) as (_ & _ & _ & _ & _ & _ & Hv). lia.
Qed.


Lemma isdigit_digits (s : string) :
  digits_only s = true -> s <> "" -> PyStr.isdigit s = true.
Proof.
  intros Hd Hne. destruct s as [|c s]; [congruence |].
  unfold PyStr.isdigit. revert Hd. generalize (String c s). clear.
  induction s as [|c s IH]; cbn; intros Hd; [reflexivity |].
  apply andb_true_iff in Hd. destruct Hd as [Hc Hs].
  destruct (digit_is_plain c Hc) as (_ & Hu & _). rewrite Hu. now apply IH.
Qed.

Lemma increment_digits (t : string) (inc : Z) :
  digits_only t = true -> t <> "" ->
  (Z.of_nat (String.length t) <= PyStr.max_str_digits)%Z ->
  (Z.abs (PyStr.digits_value 0 t + inc) < 10 ^ PyStr.max_str_digits)%Z ->
  increment t inc = Ok (PyStr.decimal (PyStr.digits_value 0 t + inc)).
Proof.
  intros Hd Hne Hlen Hsum. unfold increment.
  rewrite (isdigit_digits t Hd Hne), (int_of_str_digits t Hd Hne Hlen).
  now apply str_of_int_ok.
Qed.




(** ** The substitution of [inc_nums] *)

Lemma non_digits_app (a b : string) :
  non_digits (a ++ b) = non_digits a ++ non_digits b.
Proof.
  induction a as [|c a IH]; cbn; [reflexivity |].
  destruct (PyStr.is_digit c); cbn; now rewrite IH.
Qed.

Lemma non_digits_digits (s : string) :
  digits_only s = true -> non_digits s = "".
Proof.
  induction s as [|c s IH]; cbn; [reflexivity |].
  intros H. apply andb_true_iff in H. destruct H as [Hc Hs].
  rewrite Hc. now apply IH.
Qed.

Lemma snoc_digits (m : string) (c : ascii) :
  digits_only m = true -> PyStr.is_digit c = true ->
  digits_only (PyRe.snoc m c) = true /\ PyRe.snoc m c <> "".
Proof.
  intros Hm Hc. unfold PyRe.snoc. split.
  - rewrite digits_only_app, Hm. cbn. now rewrite Hc.
  - destruct m; discriminate.
Qed.

Lemma sub_numbers_no_digit (repl : string -> result string) (t : string) :
  has_digit t = false -> PyRe.sub_numbers repl PyRe.Outside t = Ok t.
Proof.
  induction t as [|c t IH]; cbn; [reflexivity |].
  intros H. apply orb_false_iff in H. destruct H as [Hc Ht].
  rewrite Hc, (IH Ht). reflexivity.
Qed.

(** X10: a text of characters below code point 256 that has none of the
    digits 0 to 9 (the only characters there that the pattern's digit
    class matches) comes back unchanged from the substitution in the
    [return] statement of [inc_nums], points and all. *)
Theorem substitution_keeps_digitless_text (t : string) :
  has_digit t = false ->
  PyRe.sub (fun m => increment m 1) t = Ok t.
Proof.
  intros H. exact (sub_numbers_no_digit _ t H).
Qed.

Lemma substitution_keeps_digitless_text_witness :
  has_digit "St. Olav, ver. b" = false /\
  PyRe.sub (fun m => increment m 1) "St. Olav, ver. b" = Ok "St. Olav, ver. b".
Proof.
  split.
  - reflexivity.
  - exact (substitution_keeps_digitless_text "St. Olav, ver. b" eq_refl).
Defined.

(** A run of fewer than 4300 digits is incremented into digits. *)
Lemma increment_run (m : string) :
  digits_only m = true -> m <> "" ->
  (Z.of_nat (String.length m) < PyStr.max_str_digits)%Z ->
  exists r, increment m 1 = Ok r /\ non_digits r = "".
Proof.
  intros Hm Hne Hlen.
  pose proof (digits_value_nonneg m 0%Z (Z.le_refl 0) Hm) as Hv.
  pose proof (digits_value_bound m 0%Z (Z.le_refl 0) Hm) as Hb.
  assert (Hp : (10 * 10 ^ Z.of_nat (String.length m)
                <= 10 ^ PyStr.max_str_digits)%Z).
  { rewrite <- Z.pow_succ_r by lia. apply Z.pow_le_mono_r; lia. }
  assert (Hq : (0 < 10 ^ Z.of_nat (String.length m))%Z)
    by (apply Z.pow_pos_nonneg; lia).
  exists (PyStr.decimal (PyStr.digits_value 0 m + 1)). split.
  - apply increment_digits; [exact Hm | exact Hne | lia |].
    rewrite Z.abs_eq by lia. lia.
  - apply non_digits_digits, decimal_nonneg. lia.
Qed.

Lemma sub_numbers_whole (t : string) :
  contains_char "." t = false ->
  ((Z.of_nat (String.length t) < PyStr.max_str_digits)%Z ->
   exists r, PyRe.sub_numbers (fun m => increment m 1) PyRe.Outside t = Ok r /\
             non_digits r = non_digits t) /\
  (forall m, digits_only m = true -> m <> "" ->
             (Z.of_nat (String.length m + String.length t)
              < PyStr.max_str_digits)%Z ->
             exists r, PyRe.sub_numbers (fun m => increment m 1) (PyRe.InInt m) t = Ok r /\
                       non_digits r = non_digits t).
Proof.
  induction t as [|c t IH]; intros Hdot.
  - split.
    + intros _. exists "". split; reflexivity.
    + intros m Hm Hne Hlen. cbn [PyRe.sub_numbers].
      apply increment_run; [exact Hm | exact Hne |].
      cbn [String.length] in Hlen. lia.
  - cbn in Hdot. apply orb_false_iff in Hdot. destruct Hdot as [Hc Hdot].
    destruct (IH Hdot) as [IHout IHin].
    cbn [PyRe.sub_numbers non_digits].
    destruct (PyStr.is_digit c) eqn:Hd.
    + split.
      * intros Hlen. apply IHin; [cbn; now rewrite Hd | discriminate |].
        cbn [String.length] in Hlen |- *. lia.
      * intros m Hm Hne Hlen. destruct (snoc_digits m c Hm Hd) as [H1 H2].
        apply IHin; [exact H1 | exact H2 |].
        unfold PyRe.snoc. rewrite string_length_app.
        cbn [String.length] in Hlen |- *. lia.
    + split.
      * intros Hlen. cbn [String.length] in Hlen.
        destruct (IHout ltac:(lia)) as [s [Hs Hns]].
        rewrite Hs. exists (String c s). cbn. rewrite Hd, Hns.
        split; reflexivity.
      * intros m Hm Hne Hlen. cbn [String.length] in Hlen.
        destruct (IHout ltac:(lia)) as [s [Hs Hns]].
        rewrite Hc. cbn [andb].
        destruct (increment_run m Hm Hne ltac:(lia)) as [r [Hr Hnr]].
        rewrite Hr, Hs.
        eexists. split; [reflexivity |].
        rewrite non_digits_app. cbn. now rewrite Hd, Hns, Hnr.
Qed.

(** X11: on a text of fewer than 4300 characters, all below code point
    256 and none of them a point, the substitution in the [return]
    statement of [inc_nums] gives a result, and the result has the same
    characters other than the digits 0 to 9, in the same order: only runs
    of digits are rewritten. *)
Theorem substitution_keeps_other_characters (t : string) :
  contains_char "." t = false ->
  (Z.of_nat (String.length t) < PyStr.max_str_digits)%Z ->
  exists r,
    PyRe.sub (fun m => increment m 1) t = Ok r /\
    non_digits r = non_digits t.
Proof.
  intros H Hlen. exact (proj1 (sub_numbers_whole t H) Hlen).
Qed.

Lemma substitution_keeps_other_characters_witness :
  (contains_char "." "Box 9, tray 019" = false /\
   (Z.of_nat (String.length "Box 9, tray 019") < PyStr.max_str_digits)%Z) /\
  exists r,
    PyRe.sub (fun m => increment m 1) "Box 9, tray 019" = Ok r /\
    non_digits r = "Box , tray ".
Proof.
  split.
  - split; reflexivity.
  - exact (substitution_keeps_other_characters "Box 9, tray 019"
             eq_refl eq_refl).
Defined.

(** ** Identifiers of a batch *)

Section Identifiers.

Variable env : Env.
Variables t1 t2 t3 t5 setup t4 : string.
Variable k : nat.

Hypothesis never_repeats :
  forall h1 h2,
    count_events is_uuid h1 <> count_events is_uuid h2 ->
    uuid1 env h1 <> uuid1 env h2.

Lemma uuids_of_app (a b : list event) :
  uuids_of (a ++ b) = (uuids_of a ++ uuids_of b)%list.
Proof.
  induction a as [|e a IH]; cbn; [reflexivity |].
  destruct e; cbn; now rewrite IH.
Qed.

Lemma copy_events_drawn_later (n : nat) :
  forall h u,
    In u (uuids_of (copy_events env t1 t2 t3 t5 setup t4 k h n)) ->
    exists h', u = uuid1 env h' /\
               (count_events is_uuid h <= count_events is_uuid h')%nat.
Proof.
  induction n as [|n IH]; intros h u Hin; [destruct Hin |].
  cbn [copy_events] in Hin. unfold copy_block in Hin. cbn in Hin.
  destruct Hin as [<- | Hin].
  - exists h. split; [reflexivity | lia].
  - destruct (IH _ _ Hin) as [h' [Hu Hle]].
    exists h'. split; [exact Hu |].
    rewrite count_events_app in Hle. unfold count_events at 2 in Hle.
    cbn in Hle. lia.
Qed.

Lemma copy_events_distinct (n : nat) :
  forall h,
    NoDup (uuids_of (copy_events env t1 t2 t3 t5 setup t4 k h n)) /\
    List.length (uuids_of (copy_events env t1 t2 t3 t5 setup t4 k h n)) = n.
Proof.
  induction n as [|n IH]; intros h.
  - split; [constructor | reflexivity].
  - cbn [copy_events]. unfold copy_block. cbn.
    destruct (IH (h ++ copy_block env t1 t2 t3 t5 setup t4 k h)%list) as [Hnd Hlen].
    unfold copy_block in Hnd, Hlen. split.
    + constructor; [| exact Hnd].
      intros Hin. destruct (copy_events_drawn_later _ _ _ Hin) as [h' [Hu Hle]].
      revert Hu. apply never_repeats.
      rewrite count_events_app in Hle. unfold count_events at 2 in Hle.
      cbn in Hle. lia.
    + now rewrite Hlen.
Qed.

End Identifiers.

(** X12: every copy of a batch is rendered with an identifier drawn for
    it: between connecting and closing, a batch that goes through draws
    [n] identifiers, one at the start of each copy, and the document
    rendered and sent in that copy is the one made with that identifier.
    If the generator never gives the same value twice, the [n]
    identifiers are pairwise different. *)
Theorem batch_identifiers_distinct
        (env : Env) (w : World) (ip setup : string) (n : Z) :
  batch_ok env w ip setup n ->
  (forall h1 h2,
      count_events is_uuid h1 <> count_events is_uuid h2 ->
      uuid1 env h1 <> uuid1 env h2) ->
  exists (w' : World) (evs : list event),
    print_label env w = (Ok tt, w') /\
    trace w' =
      (trace w ++
       [EvPrint "Printing label"; EvSocket (List.length (sockets w));
        EvConnect (List.length (sockets w)) ip 9100%Z] ++
       evs ++ [EvPrint "Exiting"; EvClose (List.length (sockets w))])%list /\
    copy_sequence
      (fun u => doc setup u
                    (text (text1 (ids (widget (app w)))))
                    (text (text2 (ids (widget (app w)))))
                    (text (text3 (ids (widget (app w)))))
                    (text (text4 (ids (widget (app w)))))
                    (text (text5 (ids (widget (app w))))))
      (List.length (sockets w)) (Z.to_nat n) evs /\
    NoDup (uuids_of evs) /\
    List.length (uuids_of evs) = Z.to_nat n.
Proof.
  intros Hok Hfresh.
  exists (batch_done env w ip setup n), (copies env w ip setup n).
  split; [exact (print_label_ok_run env w ip setup n Hok) |].
  split; [reflexivity |].
  split; [apply copy_events_sequence |].
  unfold copies. apply copy_events_distinct. exact Hfresh.
Qed.

Lemma counting_never_repeats :
  forall h1 h2,
    count_events is_uuid h1 <> count_events is_uuid h2 ->
    uuid1 Session2.counting h1 <> uuid1 Session2.counting h2.
Proof.
  intros h1 h2 Hne Heq. apply Hne.
  unfold Session2.counting, Session2.counting_uuid in Heq. cbn [uuid1] in Heq.
  injection Heq as Heq. apply decimal_inj in Heq; lia.
Qed.

Lemma counting_batch_ok :
  batch_ok Session2.counting Session.plain Session.printer "Medium" 3.
Proof.
  constructor; try reflexivity.
  - exact printer_given.
  - intro h. reflexivity.
  - right. reflexivity.
Defined.

Lemma batch_identifiers_distinct_witness :
  (batch_ok Session2.counting Session.plain Session.printer "Medium" 3 /\
   (forall h1 h2,
       count_events is_uuid h1 <> count_events is_uuid h2 ->
       uuid1 Session2.counting h1 <> uuid1 Session2.counting h2)) /\
  exists (w' : World) (evs : list event),
    print_label Session2.counting Session.plain = (Ok tt, w') /\
    trace w' =
      ([EvPrint "Printing label"; EvSocket 0; EvConnect 0 Session.printer 9100%Z] ++
       evs ++ [EvPrint "Exiting"; EvClose 0])%list /\
    copy_sequence
      (fun u => doc "Medium" u "ID123" "Cruise A" "2024-06-01" "Box 1" "")
      0 3 evs /\
    NoDup (uuids_of evs) /\
    List.length (uuids_of evs) = 3.
Proof.
  split.
  - split; [exact counting_batch_ok | exact counting_never_repeats].
  - exact (batch_identifiers_distinct Session2.counting Session.plain
             Session.printer "Medium" 3
             counting_batch_ok counting_never_repeats).
Defined.

(** ** Documents and their fields *)

Lemma append_cancel_l (a b c : string) : a ++ b = a ++ c -> b = c.
Proof.
  induction a as [|x a IH]; cbn; intros H; [exact H |].
  injection H as H. now apply IH.
Qed.

Lemma string_tail_eq (c c' : ascii) (a b : string) :
  String c a = String c' b -> a = b.
Proof. intros H. now injection H. Qed.

Lemma caret_split (a : string) :
  forall a' r r',
    no_caret a = true -> no_caret a' = true ->
    a ++ String "^" r = a' ++ String "^" r' ->
    a = a' /\ r = r'.
Proof.
  unfold no_caret.
  induction a as [|c a IH]; intros [|c' a'] r r' Ha Ha' H; cbn in *.
  - injection H as H. split; [reflexivity | exact H].
  - injection H as Hc H. subst c'. cbn in Ha'. discriminate Ha'.
  - injection H as Hc H. subst c. cbn in Ha. discriminate Ha.
  - injection H as Hc H. subst c'.
    destruct (Ascii.eqb c "^") eqn:E; [discriminate Ha |].
    cbn in Ha, Ha'.
    destruct (IH a' r r' Ha Ha' H) as [-> ->]. split; reflexivity.
Qed.

Ltac strip_literal H :=
  repeat match type of H with
         | String _ _ = String _ _ => apply string_tail_eq in H
         end.

Ltac split_field H Hf :=
  strip_literal H;
  match type of H with
  | ?a ++ String "^" _ = ?b ++ String "^" _ =>
      let E := fresh "E" in
      destruct (caret_split a b _ _ ltac:(assumption) ltac:(assumption) H)
        as [E Hf]
  end.

Lemma doc_medium_inj (u t1 t2 t3 t4 u' t1' t2' t3' t4' : string) :
  no_caret u = true -> no_caret t1 = true -> no_caret t2 = true ->
  no_caret t3 = true -> no_caret t4 = true ->
  no_caret u' = true -> no_caret t1' = true -> no_caret t2' = true ->
  no_caret t3' = true -> no_caret t4' = true ->
  doc_medium u t1 t2 t3 t4 = doc_medium u' t1' t2' t3' t4' ->
  u = u' /\ t1 = t1' /\ t2 = t2' /\ t3 = t3' /\ t4 = t4'.
Proof.
  intros Hu H1 H2 H3 H4 Hu' H1' H2' H3' H4' H.
  unfold doc_medium, field, newline in H.
  apply append_cancel_l in H.
  repeat (rewrite ?append_assoc in H; cbn [append] in H).
  split_field H Ha. split_field Ha Hb. split_field Hb Hc.
  split_field Hc Hd. split_field Hd He.
  repeat split; assumption.
Qed.

Lemma doc_large_inj (u t1 t2 t3 t4 t5 u' t1' t2' t3' t4' t5' : string) :
  no_caret u = true -> no_caret t1 = true -> no_caret t2 = true ->
  no_caret t3 = true -> no_caret t4 = true -> no_caret t5 = true ->
  no_caret u' = true -> no_caret t1' = true -> no_caret t2' = true ->
  no_caret t3' = true -> no_caret t4' = true -> no_caret t5' = true ->
  doc_large u t1 t2 t3 t4 t5 = doc_large u' t1' t2' t3' t4' t5' ->
  u = u' /\ t1 = t1' /\ t2 = t2' /\ t3 = t3' /\ t4 = t4' /\ t5 = t5'.
Proof.
  intros Hu H1 H2 H3 H4 H5 Hu' H1' H2' H3' H4' H5' H.
  unfold doc_large, field, newline in H.
  apply append_cancel_l in H.
  repeat (rewrite ?append_assoc in H; cbn [append] in H).
  split_field H Ha. subst u'.
  strip_literal Ha. apply append_cancel_l in Ha.
  split_field Ha Hb. split_field Hb Hc. split_field Hc Hd.
  split_field Hd He. split_field He Hf.
  repeat split; assumption.
Qed.

Lemma ok_inj {A : Type} (a b : A) : Ok a = Ok b -> a = b.
Proof. intros H. now injection H. Qed.

(** X13: as long as neither the identifier nor any field text contains
    the control character [^], a rendered document determines what was
    rendered: two Medium documents (two Large documents) are equal only
    if the identifiers and all field texts are. *)
Theorem caret_free_documents_determine_fields
        (u t1 t2 t3 t4 t5 u' t1' t2' t3' t4' t5' : string) :
  forallb no_caret [u; t1; t2; t3; t4; t5; u'; t1'; t2'; t3'; t4'; t5'] = true ->
  (create_label u t1 t2 t3 t4 = create_label u' t1' t2' t3' t4' ->
   u = u' /\ t1 = t1' /\ t2 = t2' /\ t3 = t3' /\ t4 = t4') /\
  (create_large u t1 t2 t3 t4 t5 = create_large u' t1' t2' t3' t4' t5' ->
   u = u' /\ t1 = t1' /\ t2 = t2' /\ t3 = t3' /\ t4 = t4' /\ t5 = t5').
Proof.
  intros H. cbn [forallb] in H.
  repeat (apply andb_true_iff in H; destruct H as [? H]).
  split; intros E.
  - rewrite !create_label_eq in E. apply ok_inj in E.
    apply doc_medium_inj in E; assumption.
  - rewrite !create_large_eq in E. apply ok_inj in E.
    apply doc_large_inj in E; assumption.
Qed.

Lemma caret_free_documents_determine_fields_witness :
  forallb no_caret
    [Session.sample_uuid; "ID123"; "Cruise A"; "2024-06-01"; "Box 1"; "";
     Session.sample_uuid; "ID123"; "Cruise A"; "2024-06-01"; "Box 1"; ""] = true /\
  (create_label Session.sample_uuid "ID123" "Cruise A" "2024-06-01" "Box 1" =
   create_label Session.sample_uuid "ID123" "Cruise A" "2024-06-01" "Box 1" ->
   Session.sample_uuid = Session.sample_uuid /\ "ID123" = "ID123" /\
   "Cruise A" = "Cruise A" /\ "2024-06-01" = "2024-06-01" /\ "Box 1" = "Box 1").
Proof.
  split.
  - reflexivity.
  - exact (proj1 (caret_free_documents_determine_fields
             Session.sample_uuid "ID123" "Cruise A" "2024-06-01" "Box 1" ""
             Session.sample_uuid "ID123" "Cruise A" "2024-06-01" "Box 1" ""
             eq_refl)).
Defined.

(** X14: field texts are not escaped.  A first line that carries the
    text closing its field and opening the next one gives the same
    Medium document as the two lines split there: for all [a], [b], [c],
    rendering [a ^FS.. b] and [c] equals rendering [a] and [b ^FS.. c],
    although the first lines differ. *)
Theorem field_texts_are_not_escaped (u a b c t3 t4 : string) :
  create_label u (a ++ medium_separator ++ b) c t3 t4 =
  create_label u a (b ++ medium_separator ++ c) t3 t4 /\
  a ++ medium_separator ++ b <> a.
Proof.
  split.
  - rewrite !create_label_eq. f_equal.
    unfold doc_medium, field, medium_separator, newline.
    repeat (rewrite ?append_assoc; cbn [append]).
    reflexivity.
  - intros H. apply (f_equal String.length) in H.
    rewrite !length_append in H. cbn in H. lia.
Qed.

(** X15: the two templates never give the same document: whatever the
    identifiers and field texts, a Medium document differs from a Large
    one. *)
Theorem medium_and_large_documents_differ
        (u t1 t2 t3 t4 u' t1' t2' t3' t4' t5' : string) :
  create_label u t1 t2 t3 t4 <> create_large u' t1' t2' t3' t4' t5'.
Proof.
  rewrite create_label_eq, create_large_eq. intros H. apply ok_inj in H.
  unfold doc_medium, doc_large in H. vm_compute in H. discriminate H.
Qed.

(** ** The form's handlers *)

Lemma take_0 (t : string) : PyStr.take 0 t = "".
Proof. destruct t; reflexivity. Qed.

Lemma take_take_le (n m : nat) :
  (n <= m)%nat ->
  forall t, PyStr.take n (PyStr.take m t) = PyStr.take n t.
Proof.
  revert m.
  induction n as [|n IH]; intros m Hle t.
  - now rewrite !take_0.
  - destruct m as [|m]; [lia |].
    destruct t as [|c t]; [reflexivity |].
    unfold PyStr.take in *. cbn. rewrite IH by lia. reflexivity.
Qed.

Lemma take_take_ge (n m : nat) :
  (m <= n)%nat ->
  forall t, PyStr.take n (PyStr.take m t) = PyStr.take m t.
Proof.
  revert n.
  induction m as [|m IH]; intros n Hle t.
  - rewrite take_0. destruct n; reflexivity.
  - destruct n as [|n]; [lia |].
    destruct t as [|c t]; [reflexivity |].
    unfold PyStr.take in *. cbn. rewrite IH by lia. reflexivity.
Qed.

Lemma change_size_smaller (f : LimitText) (n m : nat) :
  (n <= m)%nat -> change_size (change_size f m) n = change_size f n.
Proof.
  intros Hle. unfold change_size; cbn. now rewrite take_take_le.
Qed.

Lemma fits_change_size (f : LimitText) (n : nat) : fits (change_size f n) = true.
Proof.
  unfold fits, change_size; cbn. apply Nat.leb_le.
  rewrite take_length. apply Nat.le_min_l.
Qed.

(** X16: selecting a label size twice in a row is the same as selecting
    it once, for every size text. *)
Theorem on_size_select_idempotent (ips : Ips) (w : LabelWidget) (size : string) :
  on_size_select ips (on_size_select ips w size) size =
  on_size_select ips w size.
Proof.
  unfold on_size_select.
  destruct (String.eqb size "Medium") eqn:HM; cbn.
  - now rewrite !change_size_twice.
  - destruct (String.eqb size "Large") eqn:HL; cbn.
    + now rewrite !change_size_twice.
    + reflexivity.
Qed.

(** X17: selecting Medium after any other selection gives the same form
    as selecting Medium at once; it empties the fifth line, and selecting
    Large afterwards does not bring that line back, nor the characters of
    the other lines beyond the 18th. *)
Theorem medium_selection_loses_text (ips : Ips) (w : LabelWidget) (size : string) :
  on_size_select ips (on_size_select ips w size) "Medium" =
    on_size_select ips w "Medium" /\
  text (text5 (ids (on_size_select ips w "Medium"))) = "" /\
  text (text5 (ids (on_size_select ips (on_size_select ips w "Medium") "Large"))) = "" /\
  text (text1 (ids (on_size_select ips (on_size_select ips w "Medium") "Large"))) =
    PyStr.take 18 (text (text1 (ids w))).
Proof.
  split; [| split; [| split]].
  - unfold on_size_select at 2.
    destruct (String.eqb size "Medium") eqn:HM;
      [| destruct (String.eqb size "Large") eqn:HL];
      unfold on_size_select; cbn;
      rewrite ?change_size_twice, ?change_size_smaller by lia; reflexivity.
  - unfold on_size_select, change_size; cbn [String.eqb Ascii.eqb Bool.eqb
      ids text5 text]. apply take_0.
  - unfold on_size_select, change_size; cbn [String.eqb Ascii.eqb Bool.eqb
      ids text5 text]. rewrite take_0. reflexivity.
  - unfold on_size_select, change_size; cbn [String.eqb Ascii.eqb Bool.eqb
      ids text1 text].
    apply take_take_ge. lia.
Qed.

Lemma form_untouched_by_other_size (ips : Ips) (w : LabelWidget) (size : string) :
  String.eqb size "Medium" = false -> String.eqb size "Large" = false ->
  ids (on_size_select ips w size) = ids w.
Proof.
  intros HM HL. unfold on_size_select. now rewrite HM, HL.
Qed.

(** The texts fit, and the first two fields are wide enough for the date
    and for the test text. *)
Lemma sized_after_selection (ips : Ips) (w : LabelWidget) (size : string) :
  size = "Medium" \/ size = "Large" ->
  all_fit (on_size_select ips w size) = true /\
  (10 <= max_characters (text1 (ids (on_size_select ips w size))))%nat /\
  (14 <= max_characters (text2 (ids (on_size_select ips w size))))%nat.
Proof.
  intros [-> | ->]; unfold all_fit, on_size_select;
    cbn [String.eqb Ascii.eqb Bool.eqb ids text1 text2 text3 text4 text5];
    rewrite !fits_change_size; cbn; repeat split; lia.
Qed.

Lemma sized_kept (today : string) (ips : Ips) (w : LabelWidget) (c : form_call) :
  String.length today = 10 ->
  all_fit w = true /\
  (10 <= max_characters (text1 (ids w)))%nat /\
  (14 <= max_characters (text2 (ids w)))%nat ->
  all_fit (form_step today ips w c) = true /\
  (10 <= max_characters (text1 (ids (form_step today ips w c))))%nat /\
  (14 <= max_characters (text2 (ids (form_step today ips w c))))%nat.
Proof.
  intros Hday (Hfit & H1 & H2).
  destruct c as [size | active id]; cbn [form_step].
  - destruct (String.eqb size "Medium") eqn:HM.
    + apply String.eqb_eq in HM. apply sized_after_selection. now left.
    + destruct (String.eqb size "Large") eqn:HL.
      * apply String.eqb_eq in HL. apply sized_after_selection. now right.
      * unfold all_fit.
        rewrite (form_untouched_by_other_size ips w size HM HL).
        repeat split; assumption.
  - unfold all_fit in Hfit.
    repeat (apply andb_true_iff in Hfit; destruct Hfit as [Hfit ?]).
    unfold activate_checkbox, all_fit.
    destruct (String.eqb id "date"); [| destruct (String.eqb id "test");
      [| destruct (String.eqb id "inc_num")]];
      cbn [ids text1 text2 text3 text4 text5 set_text max_characters text];
      repeat split; try assumption;
      repeat (apply andb_true_iff; split); try assumption;
      unfold fits; cbn [text max_characters set_text]; apply Nat.leb_le;
      destruct active; cbn [times String.length]; try lia.
Qed.

(** X18: once Medium or Large has been selected, the two handlers of the
    form keep every text within the length its field allows, whatever is
    selected or ticked afterwards (the date being the 10 characters of an
    ISO date). *)
Theorem handlers_keep_texts_within_limits
        (today : string) (ips : Ips) (w : LabelWidget) (size : string)
        (calls : list form_call) :
  String.length today = 10 ->
  size = "Medium" \/ size = "Large" ->
  all_fit (form_run today ips (SelectSize size :: calls) w) = true.
Proof.
  intros Hday Hsize. unfold form_run. cbn [fold_left form_step].
  pose proof (sized_after_selection ips w size Hsize) as Hinv.
  revert Hinv. generalize (on_size_select ips w size).
  induction calls as [|c calls IH]; intros f Hinv; cbn [fold_left].
  - exact (proj1 Hinv).
  - apply IH. now apply sized_kept.
Qed.

Lemma handlers_keep_texts_within_limits_witness :
  (String.length "2024-06-01" = 10 /\ ("Large" = "Medium" \/ "Large" = "Large")) /\
  all_fit (form_run "2024-06-01" default_IPS
             [SelectSize "Large"; Activate true "date"; SelectSize "Medium";
              Activate true "test"; Activate false "date"]
             Session.long_form) = true.
Proof.
  split.
  - split; [reflexivity | right; reflexivity].
  - exact (handlers_keep_texts_within_limits "2024-06-01" default_IPS
             Session.long_form "Large"
             [Activate true "date"; SelectSize "Medium";
              Activate true "test"; Activate false "date"]
             eq_refl (or_intror eq_refl)).
Defined.

Lemma flag_kept (today : string) (ips : Ips) (w : LabelWidget) (c : form_call) :
  inc_num (text4 (ids w)) = true ->
  inc_num (text4 (ids (form_step today ips w c))) = true.
Proof.
  intros H. destruct c as [size | active id]; cbn [form_step].
  - unfold on_size_select.
    destruct (String.eqb size "Medium"); [| destruct (String.eqb size "Large")];
      cbn; exact H.
  - unfold activate_checkbox.
    destruct (String.eqb id "date"); [| destruct (String.eqb id "test");
      [| destruct (String.eqb id "inc_num")]]; cbn; try exact H; reflexivity.
Qed.

Lemma flag_stays (today : string) (ips : Ips) (calls : list form_call) :
  forall w,
    inc_num (text4 (ids w)) = true ->
    inc_num (text4 (ids (form_run today ips calls w))) = true.
Proof.
  unfold form_run.
  induction calls as [|c calls IH]; intros w H; cbn [fold_left];
    [exact H | apply IH, flag_kept, H].
Qed.

(** X19: the increment check box sets the flag whether it is ticked or
    unticked, and neither handler of the form ever clears it.  So after
    one click on that box, whatever is done in the form afterwards, every
    batch that connects and asks for at least one copy stops with
    [NameError] before a document is rendered. *)
Theorem increment_box_breaks_printing_for_good
        (env : Env) (today : string) (w : World) (active : bool)
        (calls : list form_call) (ip : string) (n : Z) :
  let f := form_run today (IPS w) (Activate active "inc_num" :: calls)
                    (widget (app w)) in
  ip_text (ids f) = ip ->
  ip <> "" ->
  reachable env ip ->
  PyStr.int_of_str (number_text (ids f)) = Ok n ->
  (0 < n)%Z ->
  inc_num (text4 (ids f)) = true /\
  exists w' : World,
    print_label env (with_widget w f) = (Raise (NameError "inc_nums"), w') /\
    count_events is_render (trace w') = count_events is_render (trace w) /\
    count_events is_send (trace w') = count_events is_send (trace w).
Proof.
  intros f Hip Hne Hreach Hnum Hpos.
  assert (Hflag : inc_num (text4 (ids f)) = true).
  { unfold f, form_run. cbn [fold_left form_step].
    apply (flag_stays today (IPS w) calls). reflexivity. }
  split; [exact Hflag |].
  exists (connected ip (with_trace (with_widget w f) [EvPrint "Printing label"])).
  split.
  - apply print_label_flag_run with (n := n); assumption.
  - unfold connected, with_trace, with_widget; cbn [trace].
    rewrite !count_events_app. unfold count_events; cbn. lia.
Qed.

Lemma increment_box_breaks_printing_for_good_witness :
  (ip_text (ids (form_run "2024-06-01" default_IPS
                   [Activate false "inc_num"; SelectSize "Medium";
                    Activate true "date"]
                   (Session.form false))) = Session.printer /\
   Session.printer <> "" /\
   reachable Session.online Session.printer /\
   PyStr.int_of_str "3" = Ok 3%Z /\
   (0 < 3)%Z) /\
  inc_num (text4 (ids (form_run "2024-06-01" default_IPS
                         [Activate false "inc_num"; SelectSize "Medium";
                          Activate true "date"]
                         (Session.form false)))) = true /\
  exists w' : World,
    print_label Session.online
      (with_widget Session.plain
         (form_run "2024-06-01" default_IPS
            [Activate false "inc_num"; SelectSize "Medium"; Activate true "date"]
            (Session.form false))) = (Raise (NameError "inc_nums"), w') /\
    count_events is_render (trace w') = 0 /\
    count_events is_send (trace w') = 0.
Proof.
  split.
  - repeat split; try exact printer_given; try exact online_reachable.
  - exact (increment_box_breaks_printing_for_good Session.online "2024-06-01"
             Session.plain false [SelectSize "Medium"; Activate true "date"]
             Session.printer 3
             eq_refl printer_given online_reachable eq_refl eq_refl).
Defined.


(** ** The configuration file *)

(** X20: whatever [config.yaml] holds, and even when reading it raises,
    [read_config] leaves no entry of [IPS] empty: an entry that was true
    in a condition before is still so afterwards. *)
Theorem read_config_keeps_addresses (config : option yaml) (t : IpsTable) :
  truthy (tab_M t) = true ->
  truthy (tab_L t) = true ->
  truthy (tab_M (snd (read_config config t))) = true /\
  truthy (tab_L (snd (read_config config t))) = true.
Proof.
  intros HM HL. unfold read_config.
  destruct config as [cfg|]; [| split; assumption].
  destruct (cfg_ip cfg "medium") as [m|e]; [| split; assumption].
  destruct (truthy m) eqn:Hm;
    destruct (cfg_ip cfg "large") as [l|e']; cbn;
    try (split; assumption);
    destruct (truthy l) eqn:Hl; cbn; split; assumption.
Qed.

Lemma read_config_keeps_addresses_witness :
  (truthy (tab_M (table_of default_IPS)) = true /\
   truthy (tab_L (table_of default_IPS)) = true) /\
  truthy (tab_M (snd (read_config (Some Session2.medium_only)
                                  (table_of default_IPS)))) = true /\
  truthy (tab_L (snd (read_config (Some Session2.medium_only)
                                  (table_of default_IPS)))) = true.
Proof.
  split.
  - split; reflexivity.
  - exact (read_config_keeps_addresses (Some Session2.medium_only)
             (table_of default_IPS) eq_refl eq_refl).
Defined.

(** X21: reading the same configuration a second time changes nothing:
    the table and the outcome are those of the first reading. *)
Theorem read_config_idempotent (config : option yaml) (t : IpsTable) :
  read_config config (snd (read_config config t)) = read_config config t.
Proof.
  unfold read_config.
  destruct config as [cfg|]; [| reflexivity].
  destruct (cfg_ip cfg "medium") as [m|e]; [| reflexivity].
  destruct (cfg_ip cfg "large") as [l|e']; cbn;
    destruct (truthy m) eqn:Hm; cbn; rewrite ?Hm;
    try reflexivity;
    destruct (truthy l) eqn:Hl; cbn; rewrite ?Hm, ?Hl; reflexivity.
Qed.

(** X22: a file that gives a Medium address but has no [large] key makes
    [read_config] raise [KeyError] for [large] after the Medium address
    has been stored: the table is left half updated.  An empty file (its
    content loads as [None]) raises [TypeError] and leaves the table
    alone, and so does the absence of the file, without raising. *)
Theorem read_config_stops_half_way
        (entries ips : list (string * yaml)) (m : yaml) (t : IpsTable) :
  map_get entries "ips" = Some (YMap ips) ->
  map_get ips "medium" = Some m ->
  truthy m = true ->
  map_get ips "large" = None ->
  read_config (Some (YMap entries)) t =
    (Some (KeyError "large"), mkIpsTable m (tab_L t)) /\
  read_config (Some YNull) t =
    (Some (TypeError "'NoneType' object is not subscriptable"), t) /\
  read_config None t = (None, t).
Proof.
  intros Hips Hm Htrue Hl.
  split; [| split; reflexivity].
  unfold read_config, cfg_ip, subscript.
  rewrite Hips, Hm, Htrue, Hl. reflexivity.
Qed.

Lemma read_config_stops_half_way_witness :
  (map_get [("ips", YMap [("medium", YStr "10.0.0.7")])] "ips" =
     Some (YMap [("medium", YStr "10.0.0.7")]) /\
   map_get [("medium", YStr "10.0.0.7")] "medium" = Some (YStr "10.0.0.7") /\
   truthy (YStr "10.0.0.7") = true /\
   map_get [("medium", YStr "10.0.0.7")] "large" = None) /\
  read_config (Some (YMap [("ips", YMap [("medium", YStr "10.0.0.7")])]))
              (table_of default_IPS) =
    (Some (KeyError "large"),
     mkIpsTable (YStr "10.0.0.7") (tab_L (table_of default_IPS))).
Proof.
  split.
  - repeat split.
  - exact (proj1 (read_config_stops_half_way
             [("ips", YMap [("medium", YStr "10.0.0.7")])]
             [("medium", YStr "10.0.0.7")] (YStr "10.0.0.7")
             (table_of default_IPS) eq_refl eq_refl eq_refl eq_refl)).
Defined.

(** ** From the configuration to the connection *)

Lemma grows_refl (w : World) : grows w w.
Proof. exists []. now rewrite app_nil_r. Qed.

Lemma grows_trans (a b c : World) : grows a b -> grows b c -> grows a c.
Proof.
  intros [x Hx] [y Hy]. exists (x ++ y)%list.
  now rewrite Hy, Hx, app_assoc.
Qed.

Lemma grows_with_trace (w : World) (evs : list event) : grows w (with_trace w evs).
Proof. exists evs. reflexivity. Qed.

Section Growth.

Variable env : Env.

Lemma print_copy_grows (t1 t2 t3 t5 : string) (l : loop_locals) (w : World) :
  grows w (snd (print_copy env t1 t2 t3 t5 l w)).
Proof.
  unfold print_copy, new_hex_uuid, send_to_printer, inc_nums. run_monad.
  destruct (inc_num (text4 (ids (widget (app w))))); cbn;
    [apply grows_refl |].
  destruct (String.eqb (setup_text (ids (widget (app w)))) "Large").
  - rewrite create_large_eq. cbn.
    destruct (socket (app w)) as [k|]; cbn;
      [| exists [EvUuid (uuid1 env (trace w));
                 EvRender (doc_large (uuid1 env (trace w)) t1 t2 t3 (l_text4 l) t5)];
         now rewrite <- app_assoc].
    destruct (nth_error (sockets w) k) as [[| host port |]|]; cbn;
      try (eexists; rewrite <- !app_assoc; reflexivity).
    destruct (net_send env _ _); cbn; eexists; rewrite <- !app_assoc; reflexivity.
  - destruct (String.eqb (setup_text (ids (widget (app w)))) "Medium").
    + rewrite create_label_eq. cbn.
      destruct (socket (app w)) as [k|]; cbn;
        [| exists [EvUuid (uuid1 env (trace w));
                   EvRender (doc_medium (uuid1 env (trace w)) t1 t2 t3 (l_text4 l))];
           now rewrite <- app_assoc].
      destruct (nth_error (sockets w) k) as [[| host port |]|]; cbn;
        try (eexists; rewrite <- !app_assoc; reflexivity).
      destruct (net_send env _ _); cbn; eexists; rewrite <- !app_assoc; reflexivity.
    + cbn. destruct (l_zpl l) as [z|]; cbn; [| apply grows_refl].
      destruct (socket (app w)) as [k|]; cbn; [| apply grows_refl].
      destruct (nth_error (sockets w) k) as [[| host port |]|]; cbn;
        try (eexists; rewrite <- ?app_assoc; reflexivity).
      destruct (net_send env _ _); cbn; eexists; rewrite <- ?app_assoc; reflexivity.
Qed.

Lemma for_range_grows (t1 t2 t3 t5 : string) (n : nat) :
  forall (l : loop_locals) (w : World),
    grows w (snd (for_range n (print_copy env t1 t2 t3 t5) l w)).
Proof.
  induction n as [|n IH]; intros l w.
  - apply grows_refl.
  - unfold for_range; fold (@for_range loop_locals). unfold bind at 1.
    pose proof (print_copy_grows t1 t2 t3 t5 l w) as Hstep.
    destruct (print_copy env t1 t2 t3 t5 l w) as [[l1|e] w1]; cbn in Hstep.
    + apply grows_trans with (b := w1); [exact Hstep | apply IH].
    + exact Hstep.
Qed.

Lemma print_label_starts_by_connecting (w : World) (ip : string) :
  ip_text (ids (widget (app w))) = ip ->
  ip <> "" ->
  reachable env ip ->
  grows (connected ip (with_trace w [EvPrint "Printing label"]))
        (snd (print_label env w)).
Proof.
  intros Hip Hne Hreach.
  rewrite (print_label_connected_run env w ip Hip Hne Hreach). cbn zeta.
  destruct (PyStr.int_of_str _) as [n|e]; [| apply grows_refl].
  match goal with
  | |- context [for_range ?n (print_copy env ?a ?b ?c ?d) ?l ?w1] =>
      pose proof (for_range_grows a b c d n l w1) as Hloop;
      destruct (for_range n (print_copy env a b c d) l w1) as [[l1|e] w2]
  end; cbn [snd] in *; [| exact Hloop].
  apply grows_trans with (b := w2); [exact Hloop |].
  unfold closed_world, with_trace.
  destruct (socket (app w2)); eexists; reflexivity.
Qed.

End Growth.

(** X23: the Medium address of the configuration file is where the
    first batch connects.  If [read_config] goes through on a file whose
    Medium entry is the text [a] (not empty), and the table then holds
    texts, the application built on that table has [a] in its address
    field, and a batch run on it, whatever comes after, begins by creating
    a socket and connecting it to [a], port 9100. *)
Theorem configured_address_is_connected_to
        (env : Env) (cfg : yaml) (a : string) (ips0 ips : Ips)
        (f : LabelWidget) :
  cfg_ip cfg "medium" = inl (YStr a) ->
  a <> "" ->
  fst (read_config (Some cfg) (table_of ips0)) = None ->
  ips_of (snd (read_config (Some cfg) (table_of ips0))) = Some ips ->
  reachable env a ->
  ip_text (ids (widget (build f ips))) = a /\
  exists evs,
    trace (snd (print_label env (mkWorld (build f ips) ips [] []))) =
      ([EvPrint "Printing label"; EvSocket 0; EvConnect 0 a 9100%Z] ++ evs)%list.
Proof.
  intros Hm Hne Hok Hips Hreach.
  assert (Ha : ips_M ips = a).
  { unfold read_config in Hok, Hips. rewrite Hm in Hok, Hips.
    assert (Ht : truthy (YStr a) = true).
    { cbn. now rewrite (eqb_empty_false a Hne). }
    rewrite Ht in Hok, Hips.
    destruct (cfg_ip cfg "large") as [l|e]; [| discriminate Hok].
    cbn in Hips. destruct (truthy l); cbn in Hips;
      unfold ips_of in Hips; cbn in Hips.
    - destruct l; try discriminate Hips. now inversion Hips.
    - now inversion Hips. }
  split; [exact Ha |].
  destruct (print_label_starts_by_connecting env
              (mkWorld (build f ips) ips [] []) a Ha Hne Hreach) as [evs Hevs].
  exists evs. rewrite Hevs. reflexivity.
Qed.

Lemma configured_reachable :
  reachable Session.online "10.0.0.7".
Proof. intro h. reflexivity. Defined.

Lemma configured_given : "10.0.0.7" <> "".
Proof. discriminate. Defined.

Lemma configured_address_is_connected_to_witness :
  (cfg_ip Session2.medium_only "medium" = inl (YStr "10.0.0.7") /\
   "10.0.0.7" <> "" /\
   fst (read_config (Some Session2.medium_only) (table_of default_IPS)) = None /\
   ips_of (snd (read_config (Some Session2.medium_only) (table_of default_IPS))) =
     Some (mkIps "10.0.0.7" (ips_L default_IPS)) /\
   reachable Session.online "10.0.0.7") /\
  ip_text (ids (widget (build (Session.form false)
                              (mkIps "10.0.0.7" (ips_L default_IPS))))) = "10.0.0.7" /\
  exists evs,
    trace (snd (print_label Session.online
                  (mkWorld (build (Session.form false)
                                  (mkIps "10.0.0.7" (ips_L default_IPS)))
                           (mkIps "10.0.0.7" (ips_L default_IPS)) [] []))) =
      ([EvPrint "Printing label"; EvSocket 0; EvConnect 0 "10.0.0.7" 9100%Z] ++ evs)%list.
Proof.
  split.
  - repeat split; try exact configured_given; try exact configured_reachable.
  - exact (configured_address_is_connected_to Session.online
             Session2.medium_only "10.0.0.7" default_IPS
             (mkIps "10.0.0.7" (ips_L default_IPS)) (Session.form false)
             eq_refl configured_given eq_refl eq_refl configured_reachable).
Defined.
